(** * Auckland Council planning-document processors

    A shallow embedding of [server/simple-pdf-processor.py] (class
    [SimplePDFProcessor], the truncation pipeline) and of
    [server/langchain-pdf-rag.py] (class [AucklandCouncilPDFProcessor], the
    retrieval pipeline).

    Python code that prints, touches the file system, calls third-party
    libraries and raises exceptions is written in a state-and-exception monad.
    The state holds the receiver object ([self]), the temporary files on disk
    and the trace of external calls and printed lines.  Third-party calls
    (requests, PyPDFLoader, OpenAI, the text splitter, FAISS, RetrievalQA) are
    oracles of a [world]; module-level names are looked up in the module
    namespace, so that a name the module never binds raises [NameError] as it
    does in Python. *)

From Stdlib Require Import Ascii.
From stdpp Require Import base strings list gmap pretty.

Local Open Scope string_scope.
Local Open Scope list_scope.
#[local] Set Warnings "-abstract-large-number".

(** ** Python values shared by both modules *)

Definition bytes := list Byte.byte.

(** The exceptions that can occur, all of them subclasses of [Exception].
    [SystemExit] is not: it is a separate outcome ([Exit]) that an
    [except Exception] clause does not intercept. *)
Inductive exn :=
| NameError (name : string)
| AttributeError (cls attr : string)
| KeyError (key : string)
| FileNotFoundError (path : nat)
| RequestException (msg : string)
| HTTPError (msg : string)
| LibraryError (msg : string).

(** [str(e)] *)
Definition exn_str (e : exn) : string :=
  match e with
  | NameError n => "name '" +:+ n +:+ "' is not defined"
  | AttributeError c a => "'" +:+ c +:+ "' object has no attribute '" +:+ a +:+ "'"
  | KeyError k => "'" +:+ k +:+ "'"
  | FileNotFoundError p => "[Errno 2] No such file or directory: 'tmp" +:+ pretty p +:+ ".pdf'"
  | RequestException m => m
  | HTTPError m => m
  | LibraryError m => m
  end.

Inductive result (A : Type) :=
| Ok (a : A)
| Raise (e : exn)
| Exit (code : Z).
Arguments Ok {A} a.
Arguments Raise {A} e.
Arguments Exit {A} code.

(** A value of the module namespace. *)
Inductive pyval :=
| PyNone
| PyBool (b : bool)
| PyClass (name : string)
| PyModule (name : string).

(** What [main] hands to [json.dumps]: a flat dict whose values are [None],
    a [bool] or a [str].  The object keeps the insertion order of the dict. *)
Inductive jvalue :=
| JNull
| JBool (b : bool)
| JStr (s : string).

Definition json := list (string * jvalue).

Record Response := { content : bytes; status_error : option string }.
Record Document := { page_content : string }.
Record LLM := { api_key : string; temperature : Z }.
Record TextSplitter := { chunk_size : nat; chunk_overlap : nat }.
Record VectorStore := { indexed : list Document }.

(** The third-party behaviour a run depends on.  [status_error] of a response
    is the message [raise_for_status] raises with, if it raises. *)
Record world := {
  http_get : string -> exn + Response;
  pdf_load : bytes -> exn + list Document;
  openai_new : string -> option exn;
  llm_invoke : LLM -> string -> exn + string;
  split_documents : TextSplitter -> list Document -> exn + list Document;
  faiss_from_documents : list Document -> exn + VectorStore;
  retrieval_qa : option LLM -> VectorStore -> nat -> string -> exn + string
}.

Inductive event :=
| HttpGet (url : string) (timeout : Z)
| TmpCreate (path : nat)
| TmpWrite (path : nat)
| PdfLoad (path : nat)
| Unlink (path : nat)
| OpenAINew (key : string)
| LLMInvoke (prompt : string)
| SplitDocuments (pages : nat)
| FaissFromDocuments (chunks : nat)
| RetrievalQARun (query : string)
| Print (line : string)
| PrintJson (j : json).

(** ** The monad *)

Record state (Self : Type) := State {
  self : Self;
  files : gmap nat bytes;
  trace : list event
}.
Arguments State {Self} self files trace.
Arguments self {Self} s.
Arguments files {Self} s.
Arguments trace {Self} s.

Definition M (Self A : Type) : Type := state Self -> result A * state Self.

Section Monad.
Context {Self : Type}.

Definition ret {A} (a : A) : M Self A := fun s => (Ok a, s).

Definition bind {A B} (c : M Self A) (k : A -> M Self B) : M Self B :=
  fun s =>
    match c s with
    | (Ok a, s') => k a s'
    | (Raise e, s') => (Raise e, s')
    | (Exit n, s') => (Exit n, s')
    end.

Definition raise {A} (e : exn) : M Self A := fun s => (Raise e, s).

(** [sys.exit(code)] *)
Definition sys_exit {A} (code : Z) : M Self A := fun s => (Exit code, s).

(** [try: body except Exception as e: handler e]; what [body] did to the
    state before it raised stays done. *)
Definition try_except {A} (body : M Self A) (handler : exn -> M Self A) : M Self A :=
  fun s =>
    match body s with
    | (Raise e, s') => handler e s'
    | r => r
    end.

Definition get_self : M Self Self := fun s => (Ok (self s), s).

Definition update_self (f : Self -> Self) : M Self unit :=
  fun s => (Ok tt, State (f (self s)) (files s) (trace s)).

Definition emit (e : event) : M Self unit :=
  fun s => (Ok tt, State (self s) (files s) (trace s ++ [e])).

(** [print(line)] *)
Definition print (line : string) : M Self unit := emit (Print line).

(** A library call: recorded in the trace, then it returns or raises. *)
Definition call {A} (e : event) (r : exn + A) : M Self A :=
  bind (emit e) (fun _ => match r with inl x => raise x | inr a => ret a end).

(** [tempfile.NamedTemporaryFile(delete=False, suffix='.pdf')]: a file that
    did not exist before, and that stays on disk after it is closed. *)
Definition named_temporary_file : M Self nat :=
  fun s =>
    let p := fresh (dom (files s)) in
    (Ok p, State (self s) (<[p := []]> (files s)) (trace s ++ [TmpCreate p])).

(** [tmp_file.write(data)] *)
Definition file_write (p : nat) (data : bytes) : M Self unit :=
  fun s => (Ok tt, State (self s) (<[p := data]> (files s)) (trace s ++ [TmpWrite p])).

(** [os.unlink(path)] *)
Definition os_unlink (p : nat) : M Self unit :=
  fun s =>
    match files s !! p with
    | Some _ => (Ok tt, State (self s) (delete p (files s)) (trace s ++ [Unlink p]))
    | None => (Raise (FileNotFoundError p), s)
    end.

(** [PyPDFLoader(path).load()]: the loader reads the file at [path]. *)
Definition pdf_loader_load (w : world) (p : nat) : M Self (list Document) :=
  fun s =>
    match files s !! p with
    | Some data => call (PdfLoad p) (pdf_load w data) s
    | None => (Raise (FileNotFoundError p), s)
    end.

(** Evaluating a module-level name. *)
Definition lookup_global (g : gmap string pyval) (name : string) : M Self pyval :=
  match g !! name with
  | Some v => ret v
  | None => raise (NameError name)
  end.
End Monad.

Notation "x <- c ;; k" := (bind c (fun x => k))
  (at level 100, c at next level, right associativity).
Notation "c ;;; k" := (bind c (fun _ => k))
  (at level 100, right associativity).

(** ** Python helpers *)

Definition newline : string := String "010"%char EmptyString.

(** [sep.join(parts)] *)
Definition str_join (sep : string) (parts : list string) : string :=
  String.concat sep parts.

(** A Python [str] is a sequence of code points.  It is held here as a
    [string] of the bytes of its UTF-8 encoding, which is also what a string
    literal of this file is.  Concatenation, [join] and emptiness are the same
    on the encoding; [len] and slices count code points, that is the bytes
    that start one: all but the continuation bytes [10xxxxxx]. *)
Definition is_continuation (c : ascii) : bool :=
  match c with
  | Ascii _ _ _ _ _ _ b6 b7 => b7 && negb b6
  end.

(** [len(s)] *)
Fixpoint str_len (s : string) : nat :=
  match s with
  | EmptyString => 0
  | String c s' => if is_continuation c then str_len s' else S (str_len s')
  end.

(** [s[:n]] for [n >= 0]: the first [n] code points, each with all of its
    bytes. *)
Fixpoint str_prefix (n : nat) (s : string) : string :=
  match s with
  | EmptyString => EmptyString
  | String c s' =>
      if is_continuation c then String c (str_prefix n s')
      else
        match n with
        | O => EmptyString
        | S n' => String c (str_prefix n' s')
        end
  end.

(** [s * n] *)
Fixpoint str_repeat (s : string) (n : nat) : string :=
  match n with
  | O => EmptyString
  | S n' => s +:+ str_repeat s n'
  end.

(** Truthiness of a [str], of an [Optional[str]] and of a [list]. *)
Definition str_truthy (s : string) : bool :=
  match s with EmptyString => false | _ => true end.

Definition opt_str_truthy (o : option string) : bool :=
  match o with Some s => str_truthy s | None => false end.

Definition list_truthy {A} (l : list A) : bool :=
  match l with [] => false | _ => true end.

(** A dict display [{k1: v1, k2: v2, ...}]: entries are stored left to right,
    a later entry for the same key replaces the earlier one. *)
Definition dict_of {V} (entries : list (string * V)) : gmap string V :=
  fold_left (fun m kv => <[kv.1 := kv.2]> m) entries ∅.

(** Running the block
    [try: import n1; import n2; ...; LANGCHAIN_AVAILABLE = True
     except ImportError: LANGCHAIN_AVAILABLE = False]
    when its first [done] import statements succeed: the names imported
    before the failure stay bound.  (The names of the unconditional imports,
    [requests], [tempfile], [os], [json], [sys], are always bound and are not
    tracked.) *)
Definition import_block (names : list (string * pyval)) (done : nat) : gmap string pyval :=
  let bound := fold_left (fun m kv => <[kv.1 := kv.2]> m) (take done names) ∅ in
  <["LANGCHAIN_AVAILABLE" := PyBool (bool_decide (length names ≤ done)%nat)]> bound.

(** Truthiness of a namespace value. *)
Definition truthy (v : pyval) : bool :=
  match v with
  | PyNone => false
  | PyBool b => b
  | PyClass _ | PyModule _ => true
  end.

(** [v is None] *)
Definition is_none (v : pyval) : bool :=
  match v with PyNone => true | _ => false end.

(** [response.raise_for_status()] *)
Definition raise_for_status {Self} (r : Response) : M Self unit :=
  match status_error r with
  | Some msg => raise (HTTPError msg)
  | None => ret tt
  end.

(** [None] or a [str], as a JSON value. *)
Definition json_of_opt (o : option string) : jvalue :=
  match o with Some s => JStr s | None => JNull end.

(** ** server/simple-pdf-processor.py *)

Module Simple.

(** An instance of [SimplePDFProcessor].  An attribute is [None] until an
    assignment creates it; reading it before that raises
    [AttributeError]. *)
Record SimplePDFProcessor := {
  available : option pyval;
  llm : option (option LLM)
}.

Definition blank : SimplePDFProcessor := {| available := None; llm := None |}.

Definition cls : string := "SimplePDFProcessor".

(** Lines 13-18: the module namespace once the import block has run. *)
Definition globals (done : nat) : gmap string pyval :=
  import_block [("PyPDFLoader", PyClass "PyPDFLoader"); ("OpenAI", PyClass "OpenAI")] done.

(** [self.available], [self.llm] *)
Definition get_available : M SimplePDFProcessor pyval :=
  s <- get_self ;;
  match available s with
  | Some v => ret v
  | None => raise (AttributeError cls "available")
  end.

Definition get_llm : M SimplePDFProcessor (option LLM) :=
  s <- get_self ;;
  match llm s with
  | Some v => ret v
  | None => raise (AttributeError cls "llm")
  end.

Definition set_available (v : pyval) : M SimplePDFProcessor unit :=
  update_self (fun s => {| available := Some v; llm := llm s |}).

Definition set_llm (v : option LLM) : M SimplePDFProcessor unit :=
  update_self (fun s => {| available := available s; llm := Some v |}).

Definition get_zone_pdf_urls : gmap string string := dict_of [
  ("H1", "https://unitaryplan.aucklandcouncil.govt.nz/images/Auckland%20Unitary%20Plan%20Operative/Chapter%20H%20Zones/H1%20Residential%20-%20Large%20Lot%20Zone.pdf");
  ("H2", "https://unitaryplan.aucklandcouncil.govt.nz/images/Auckland%20Unitary%20Plan%20Operative/Chapter%20H%20Zones/H2%20Residential%20-%20Rural%20and%20Coastal%20Settlement%20Zone.pdf");
  ("H3", "https://unitaryplan.aucklandcouncil.govt.nz/images/Auckland%20Unitary%20Plan%20Operative/Chapter%20H%20Zones/H3%20Residential%20-%20Single%20House%20Zone.pdf");
  ("H4", "https://unitaryplan.aucklandcouncil.govt.nz/images/Auckland%20Unitary%20Plan%20Operative/Chapter%20H%20Zones/H4%20Residential%20-%20Mixed%20Housing%20Suburban%20Zone.pdf");
  ("H5", "https://unitaryplan.aucklandcouncil.govt.nz/images/Auckland%20Unitary%20Plan%20Operative/Chapter%20H%20Zones/H5%20Residential%20-%20Mixed%20Housing%20Urban%20Zone.pdf");
  ("H6", "https://unitaryplan.aucklandcouncil.govt.nz/images/Auckland%20Unitary%20Plan%20Operative/Chapter%20H%20Zones/H6%20Residential%20-%20Terrace%20Housing%20and%20Apartment%20Buildings%20Zone.pdf");
  ("H7", "https://unitaryplan.aucklandcouncil.govt.nz/images/Auckland%20Unitary%20Plan%20Operative/Chapter%20H%20Zones/H7%20Open%20Space%20zones.pdf");
  ("H8", "https://unitaryplan.aucklandcouncil.govt.nz/images/Auckland%20Unitary%20Plan%20Operative/Chapter%20H%20Zones/H8%20Business%20-%20City%20Centre%20Zone.pdf");
  ("H9", "https://unitaryplan.aucklandcouncil.govt.nz/images/Auckland%20Unitary%20Plan%20Operative/Chapter%20H%20Zones/H9%20Business%20-%20Metropolitan%20Centre%20Zone.pdf");
  ("H10", "https://unitaryplan.aucklandcouncil.govt.nz/images/Auckland%20Unitary%20Plan%20Operative/Chapter%20H%20Zones/H10%20Business%20-%20Town%20Centre%20Zone.pdf");
  ("H11", "https://unitaryplan.aucklandcouncil.govt.nz/images/Auckland%20Unitary%20Plan%20Operative/Chapter%20H%20Zones/H11%20Business%20-%20Local%20Centre%20Zone.pdf");
  ("H12", "https://unitaryplan.aucklandcouncil.govt.nz/images/Auckland%20Unitary%20Plan%20Operative/Chapter%20H%20Zones/H12%20Business%20-%20Neighbourhood%20Centre%20Zone.pdf");
  ("H13", "https://unitaryplan.aucklandcouncil.govt.nz/images/Auckland%20Unitary%20Plan%20Operative/Chapter%20H%20Zones/H13%20Business%20-%20Mixed%20Use%20Zone.pdf");
  ("H14", "https://unitaryplan.aucklandcouncil.govt.nz/images/Auckland%20Unitary%20Plan%20Operative/Chapter%20H%20Zones/H14%20Business%20-%20General%20Business%20Zone.pdf");
  ("H15", "https://unitaryplan.aucklandcouncil.govt.nz/images/Auckland%20Unitary%20Plan%20Operative/Chapter%20H%20Zones/H15%20Business%20-%20Business%20Park%20Zone.pdf");
  ("H16", "https://unitaryplan.aucklandcouncil.govt.nz/images/Auckland%20Unitary%20Plan%20Operative/Chapter%20H%20Zones/H16%20Business%20-%20Heavy%20Industry%20Zone.pdf");
  ("H17", "https://unitaryplan.aucklandcouncil.govt.nz/images/Auckland%20Unitary%20Plan%20Operative/Chapter%20H%20Zones/H17%20Business%20-%20Light%20Industry%20Zone.pdf");
  ("H18", "https://unitaryplan.aucklandcouncil.govt.nz/images/Auckland%20Unitary%20Plan%20Operative/Chapter%20H%20Zones/H18%20Future%20Urban%20Zone.pdf");
  ("H19", "https://unitaryplan.aucklandcouncil.govt.nz/images/Auckland%20Unitary%20Plan%20Operative/Chapter%20H%20Zones/H19%20Rural%20zones.pdf");
  ("D17", "https://unitaryplan.aucklandcouncil.govt.nz/images/Auckland%20Unitary%20Plan%20Operative/Chapter%20D%20Overlays/3.%20Built%20Heritage%20and%20Character/D17%20Historic%20Heritage%20Overlay.pdf");
  ("D18", "https://unitaryplan.aucklandcouncil.govt.nz/images/Auckland%20Unitary%20Plan%20Operative/Chapter%20D%20Overlays/3.%20Built%20Heritage%20and%20Character/D18%20Special%20Character%20Areas%20Overlay%20-%20Residential%20and%20Business.pdf");
  ("D19", "https://unitaryplan.aucklandcouncil.govt.nz/images/Auckland%20Unitary%20Plan%20Operative/Chapter%20D%20Overlays/3.%20Built%20Heritage%20and%20Character/D19%20Auckland%20War%20Memorial%20Museum%20Viewshaft%20Overlay.pdf");
  ("D20A", "https://unitaryplan.aucklandcouncil.govt.nz/images/Auckland%20Unitary%20Plan%20Operative/Chapter%20D%20Overlays/3.%20Built%20Heritage%20and%20Character/D20A%20Stockade%20Hill%20Viewshaft%20Overlay.pdf")
].

(** The f-string of lines 115-122. *)
Definition build_prompt (zone_code query pdf_text : string) : string :=
  newline +:+
  "Based on the following Auckland Council planning document for zone " +:+ zone_code +:+
  ", please answer this question: " +:+ query +:+ newline +:+
  newline +:+
  "Planning Document Content:" +:+ newline +:+
  pdf_text +:+ newline +:+
  newline +:+
  "Please provide specific information from the document, including exact measurements, percentages, and requirements where available. Focus on building rules, height restrictions, site coverage, setbacks, and consent requirements." +:+
  newline.

(** The dict of lines 170-176. *)
Definition response (zone_code query : string) (result : option string) : json := [
  ("success", JBool (bool_decide (result ≠ None)));
  ("zone_code", JStr zone_code);
  ("query", JStr query);
  ("result", json_of_opt result);
  ("error", match result with
            | None => JStr "Failed to process query"
            | Some _ => JNull
            end)
].

Section WithWorld.
Variable w : world.
Variable g : gmap string pyval.

Definition __init__ (openai_api_key : option string) : M SimplePDFProcessor unit :=
  v <- lookup_global g "LANGCHAIN_AVAILABLE" ;;
  set_available v ;;;
  set_llm None ;;;
  av <- get_available ;;
  if truthy av && opt_str_truthy openai_api_key then
    try_except
      (_ <- lookup_global g "OpenAI" ;;
       let key := default EmptyString openai_api_key in
       l <- call (OpenAINew key)
              (match openai_new w key with
               | Some e => inl e
               | None => inr {| api_key := key; temperature := 0 |}
               end) ;;
       set_llm (Some l))
      (fun e =>
         print ("Error initializing OpenAI: " +:+ exn_str e) ;;;
         set_llm None)
  else ret tt.

Definition extract_pdf_text (pdf_url : string) : M SimplePDFProcessor (option string) :=
  av <- get_available ;;
  if negb (truthy av) then ret None
  else
    try_except
      (response <- call (HttpGet pdf_url 30) (http_get w pdf_url) ;;
       raise_for_status response ;;;
       tmp_file_path <- (tmp_file <- named_temporary_file ;;
                         file_write tmp_file (content response) ;;;
                         ret tmp_file) ;;
       _ <- lookup_global g "PyPDFLoader" ;;
       documents <- pdf_loader_load w tmp_file_path ;;
       os_unlink tmp_file_path ;;;
       let full_text := str_join newline (map page_content documents) in
       ret (Some full_text))
      (fun e =>
         print ("Error extracting PDF text: " +:+ exn_str e) ;;;
         ret None).

Definition query_zone_with_ai (zone_code query : string) : M SimplePDFProcessor (option string) :=
  l <- get_llm ;;
  match l with
  | None => ret None
  | Some the_llm =>
    let zone_urls := get_zone_pdf_urls in
    match zone_urls !! zone_code with
    | None => ret None
    | Some url =>
      pdf_text <- extract_pdf_text url ;;
      if negb (opt_str_truthy pdf_text) then ret None
      else
        let pdf_text := str_prefix 8000 (default EmptyString pdf_text) in
        try_except
          (let prompt := build_prompt zone_code query pdf_text in
           response <- call (LLMInvoke prompt) (llm_invoke w the_llm prompt) ;;
           ret (Some response))
          (fun e =>
             print ("Error querying AI: " +:+ exn_str e) ;;;
             ret None)
    end
  end.

Definition get_zone_building_rules (zone_code : string) : M SimplePDFProcessor (option string) :=
  query_zone_with_ai zone_code
    "What are the specific building rules, height restrictions, site coverage limits, and setback requirements? Provide exact measurements and percentages.".

Definition get_zone_consent_requirements (zone_code building_type : string)
  : M SimplePDFProcessor (option string) :=
  query_zone_with_ai zone_code
    ("What consent requirements apply for building a " +:+ building_type +:+
     "? When is building consent required vs resource consent? What are the permitted activity standards?").

(** [main()], with [sys.argv] and [os.environ] as arguments.  The object
    under construction is the [self] of the state. *)
Definition main (argv : list string) (environ : gmap string string) : M SimplePDFProcessor unit :=
  if (length argv <? 3)%nat then
    print "Usage: python simple-pdf-processor.py <zone_code> <query>" ;;;
    sys_exit 1
  else
    let zone_code := nth 1 argv EmptyString in
    let query := str_join " " (drop 2 argv) in
    let openai_api_key := environ !! "OPENAI_API_KEY" in
    if negb (opt_str_truthy openai_api_key) then
      emit (PrintJson [("success", JBool false);
                       ("error", JStr "OPENAI_API_KEY environment variable not set")]) ;;;
      sys_exit 1
    else
      update_self (fun _ => blank) ;;;
      __init__ openai_api_key ;;;
      av <- get_available ;;
      if negb (truthy av) then
        emit (PrintJson [("success", JBool false);
                         ("error", JStr "LangChain dependencies not available")]) ;;;
        sys_exit 1
      else
        result <- query_zone_with_ai zone_code query ;;
        emit (PrintJson (response zone_code query result)).
End WithWorld.

End Simple.

(** ** server/langchain-pdf-rag.py *)

Module Rag.

(** An instance of [AucklandCouncilPDFProcessor], with every attribute the
    class reads or writes. *)
Record AucklandCouncilPDFProcessor := {
  available : option pyval;
  text_splitter : option TextSplitter;
  pdf_content : option (gmap string string);
  llm : option (option LLM);
  vector_stores : option (gmap string VectorStore);
  embeddings : option pyval
}.

Definition blank : AucklandCouncilPDFProcessor :=
  {| available := None; text_splitter := None; pdf_content := None;
     llm := None; vector_stores := None; embeddings := None |}.

Definition cls : string := "AucklandCouncilPDFProcessor".

(** Lines 13-20: the module namespace once the import block has run. *)
Definition globals (done : nat) : gmap string pyval :=
  import_block [("PyPDFLoader", PyClass "PyPDFLoader"); ("OpenAI", PyClass "OpenAI");
                ("PyPDF2", PyModule "PyPDF2")] done.

(** Line 19: the handler of the import block prints. *)
Definition load_module (done : nat) (import_error : string) : M AucklandCouncilPDFProcessor unit :=
  if bool_decide (3 ≤ done)%nat then ret tt
  else print ("LangChain dependencies not available: " +:+ import_error).

Definition getattr {A} (name : string) (field : AucklandCouncilPDFProcessor -> option A)
  : M AucklandCouncilPDFProcessor A :=
  s <- get_self ;;
  match field s with
  | Some v => ret v
  | None => raise (AttributeError cls name)
  end.

Definition set_available (v : pyval) : M AucklandCouncilPDFProcessor unit :=
  update_self (fun s =>
    {| available := Some v; text_splitter := text_splitter s; pdf_content := pdf_content s;
       llm := llm s; vector_stores := vector_stores s; embeddings := embeddings s |}).

Definition set_text_splitter (v : TextSplitter) : M AucklandCouncilPDFProcessor unit :=
  update_self (fun s =>
    {| available := available s; text_splitter := Some v; pdf_content := pdf_content s;
       llm := llm s; vector_stores := vector_stores s; embeddings := embeddings s |}).

Definition set_pdf_content (v : gmap string string) : M AucklandCouncilPDFProcessor unit :=
  update_self (fun s =>
    {| available := available s; text_splitter := text_splitter s; pdf_content := Some v;
       llm := llm s; vector_stores := vector_stores s; embeddings := embeddings s |}).

Definition set_llm (v : option LLM) : M AucklandCouncilPDFProcessor unit :=
  update_self (fun s =>
    {| available := available s; text_splitter := text_splitter s; pdf_content := pdf_content s;
       llm := Some v; vector_stores := vector_stores s; embeddings := embeddings s |}).

(** [self.vector_stores[zone_code] = vector_store] *)
Definition setitem_vector_stores (zone_code : string) (v : VectorStore)
  : M AucklandCouncilPDFProcessor unit :=
  stores <- getattr "vector_stores" vector_stores ;;
  update_self (fun s =>
    {| available := available s; text_splitter := text_splitter s; pdf_content := pdf_content s;
       llm := llm s; vector_stores := Some (<[zone_code := v]> stores);
       embeddings := embeddings s |}).

Definition get_zone_pdf_urls : gmap string string := dict_of [
  ("H3", "https://unitaryplan.aucklandcouncil.govt.nz/images/Auckland%20Unitary%20Plan%20Operative/Chapter%20H%20Zones/H3%20Residential%20-%20Single%20House%20Zone.pdf");
  ("H4", "https://unitaryplan.aucklandcouncil.govt.nz/images/Auckland%20Unitary%20Plan%20Operative/Chapter%20H%20Zones/H4%20Residential%20-%20Mixed%20Housing%20Suburban%20Zone.pdf");
  ("H5", "https://unitaryplan.aucklandcouncil.govt.nz/images/Auckland%20Unitary%20Plan%20Operative/Chapter%20H%20Zones/H5%20Residential%20-%20Mixed%20Housing%20Urban%20Zone.pdf");
  ("H6", "https://unitaryplan.aucklandcouncil.govt.nz/images/Auckland%20Unitary%20Plan%20Operative/Chapter%20H%20Zones/H6%20Residential%20-%20Terrace%20Housing%20and%20Apartment%20Buildings%20Zone.pdf");
  ("H7", "https://unitaryplan.aucklandcouncil.govt.nz/images/Auckland%20Unitary%20Plan%20Operative/Chapter%20H%20Zones/H7%20Residential%20-%20Apartment%20Buildings%20Zone.pdf");
  ("H8", "https://unitaryplan.aucklandcouncil.govt.nz/images/Auckland%20Unitary%20Plan%20Operative/Chapter%20H%20Zones/H8%20Residential%20-%20Large%20Lot%20Zone.pdf");
  ("H9", "https://unitaryplan.aucklandcouncil.govt.nz/images/Auckland%20Unitary%20Plan%20Operative/Chapter%20H%20Zones/H9%20Residential%20-%20Rural%20and%20Coastal%20Settlement%20Zone.pdf");
  ("I1", "https://unitaryplan.aucklandcouncil.govt.nz/images/Auckland%20Unitary%20Plan%20Operative/Chapter%20I%20Zones/I1%20Business%20-%20City%20Centre%20Zone.pdf");
  ("I2", "https://unitaryplan.aucklandcouncil.govt.nz/images/Auckland%20Unitary%20Plan%20Operative/Chapter%20I%20Zones/I2%20Business%20-%20Metropolitan%20Centre%20Zone.pdf");
  ("I3", "https://unitaryplan.aucklandcouncil.govt.nz/images/Auckland%20Unitary%20Plan%20Operative/Chapter%20I%20Zones/I3%20Business%20-%20Town%20Centre%20Zone.pdf");
  ("I4", "https://unitaryplan.aucklandcouncil.govt.nz/images/Auckland%20Unitary%20Plan%20Operative/Chapter%20I%20Zones/I4%20Business%20-%20Local%20Centre%20Zone.pdf")
].

(** The dicts of lines 215-228; [if result:] is false for [None] and for
    the empty string. *)
Definition response (zone_code query : string) (result : option string) : json :=
  if opt_str_truthy result then [
    ("success", JBool true);
    ("zone_code", JStr zone_code);
    ("query", JStr query);
    ("result", json_of_opt result)
  ] else [
    ("success", JBool false);
    ("zone_code", JStr zone_code);
    ("query", JStr query);
    ("error", JStr "Failed to process query")
  ].

Section WithWorld.
Variable w : world.
Variable g : gmap string pyval.

Definition __init__ (openai_api_key : option string) : M AucklandCouncilPDFProcessor unit :=
  v <- lookup_global g "PyPDFLoader" ;;
  set_available (PyBool (negb (is_none v))) ;;;
  av <- getattr "available" available ;;
  if negb (truthy av) then
    print "LangChain not available, using basic processing"
  else
    try_except
      (_ <- lookup_global g "RecursiveCharacterTextSplitter" ;;
       set_text_splitter {| chunk_size := 1000; chunk_overlap := 200 |} ;;;
       set_pdf_content ∅ ;;;
       if opt_str_truthy openai_api_key then
         _ <- lookup_global g "OpenAI" ;;
         let key := default EmptyString openai_api_key in
         l <- call (OpenAINew key)
                (match openai_new w key with
                 | Some e => inl e
                 | None => inr {| api_key := key; temperature := 0 |}
                 end) ;;
         set_llm (Some l)
       else set_llm None)
      (fun e =>
         print ("Error initializing LangChain components: " +:+ exn_str e) ;;;
         set_available (PyBool false)).

Definition load_pdf_from_url (pdf_url : string) : M AucklandCouncilPDFProcessor (list Document) :=
  av <- getattr "available" available ;;
  if negb (truthy av) then ret []
  else
    try_except
      (response <- call (HttpGet pdf_url 30) (http_get w pdf_url) ;;
       raise_for_status response ;;;
       tmp_file_path <- (tmp_file <- named_temporary_file ;;
                         file_write tmp_file (content response) ;;;
                         ret tmp_file) ;;
       _ <- lookup_global g "PyPDFLoader" ;;
       documents <- pdf_loader_load w tmp_file_path ;;
       os_unlink tmp_file_path ;;;
       splitter <- getattr "text_splitter" text_splitter ;;
       chunks <- call (SplitDocuments (length documents))
                   (split_documents w splitter documents) ;;
       ret chunks)
      (fun e =>
         print ("Error loading PDF from " +:+ pdf_url +:+ ": " +:+ exn_str e) ;;;
         ret []).

Definition create_vector_store (zone_code : string) : M AucklandCouncilPDFProcessor bool :=
  av <- getattr "available" available ;;
  if negb (truthy av) then ret false
  else
    stores <- getattr "vector_stores" vector_stores ;;
    match stores !! zone_code with
    | Some _ => ret true
    | None =>
      let zone_urls := get_zone_pdf_urls in
      match zone_urls !! zone_code with
      | None => ret false
      | Some url =>
        print ("Creating vector store for zone " +:+ zone_code +:+ "...") ;;;
        documents <- load_pdf_from_url url ;;
        if negb (list_truthy documents) then ret false
        else
          try_except
            (_ <- lookup_global g "FAISS" ;;
             _ <- getattr "embeddings" embeddings ;;
             vector_store <- call (FaissFromDocuments (length documents))
                               (faiss_from_documents w documents) ;;
             setitem_vector_stores zone_code vector_store ;;;
             print ("Vector store created for zone " +:+ zone_code +:+ " with " +:+
                    pretty (length documents) +:+ " chunks") ;;;
             ret true)
            (fun e =>
               print ("Error creating vector store for zone " +:+ zone_code +:+ ": " +:+
                      exn_str e) ;;;
               ret false)
      end
    end.

Definition query_zone_planning_rules (zone_code query : string)
  : M AucklandCouncilPDFProcessor (option string) :=
  av <- getattr "available" available ;;
  bail_out <- (if negb (truthy av) then ret true
                    else l <- getattr "llm" llm ;; ret (negb (bool_decide (is_Some l)))) ;;
  if (bail_out : bool) then ret None
  else
    stores <- getattr "vector_stores" vector_stores ;;
    ready <- match stores !! zone_code with
             | Some _ => ret true
             | None => create_vector_store zone_code
             end ;;
    if negb ready then ret None
    else
      try_except
        (_ <- lookup_global g "RetrievalQA" ;;
         l <- getattr "llm" llm ;;
         stores <- getattr "vector_stores" vector_stores ;;
         store <- match stores !! zone_code with
                  | Some st => ret st
                  | None => raise (KeyError zone_code)
                  end ;;
         answer <- call (RetrievalQARun query) (retrieval_qa w l store 3 query) ;;
         ret (Some answer))
        (fun e =>
           print ("Error querying zone " +:+ zone_code +:+ ": " +:+ exn_str e) ;;;
           ret None).

Definition get_zone_building_rules (zone_code : string)
  : M AucklandCouncilPDFProcessor (option string) :=
  let indent := "        " in
  query_zone_planning_rules zone_code
    (newline +:+
     indent +:+ "What are the specific building rules, height restrictions, site coverage limits, " +:+ newline +:+
     indent +:+ "and setback requirements for zone " +:+ zone_code +:+
     "? Please provide exact measurements " +:+ newline +:+
     indent +:+ "and percentages where available." +:+ newline +:+
     indent).

Definition get_zone_consent_requirements (zone_code building_type : string)
  : M AucklandCouncilPDFProcessor (option string) :=
  let indent := "        " in
  query_zone_planning_rules zone_code
    (newline +:+
     indent +:+ "What consent requirements apply for building a " +:+ building_type +:+
     " in zone " +:+ zone_code +:+ "? " +:+ newline +:+
     indent +:+ "When is a building consent required versus a resource consent? What are the " +:+ newline +:+
     indent +:+ "permitted activity standards?" +:+ newline +:+
     indent).

(** [main()], with [sys.argv] and [os.environ] as arguments. *)
Definition main (argv : list string) (environ : gmap string string)
  : M AucklandCouncilPDFProcessor unit :=
  if (length argv <? 3)%nat then
    print "Usage: python langchain-pdf-rag.py <zone_code> <query>" ;;;
    sys_exit 1
  else
    let zone_code := nth 1 argv EmptyString in
    let query := str_join " " (drop 2 argv) in
    let openai_api_key := environ !! "OPENAI_API_KEY" in
    if negb (opt_str_truthy openai_api_key) then
      print "Error: OPENAI_API_KEY environment variable not set" ;;;
      sys_exit 1
    else
      update_self (fun _ => blank) ;;;
      __init__ openai_api_key ;;;
      av <- getattr "available" available ;;
      if negb (truthy av) then
        print "Error: LangChain dependencies not available" ;;;
        sys_exit 1
      else
        result <- query_zone_planning_rules zone_code query ;;
        emit (PrintJson (response zone_code query result)).
End WithWorld.

(** The script from start to end: the module body, then [main()]. *)
Definition script (w : world) (done : nat) (import_error : string)
    (argv : list string) (environ : gmap string string) : M AucklandCouncilPDFProcessor unit :=
  load_module done import_error ;;;
  main w (globals done) argv environ.

End Rag.

(** ** Observations on a run *)

(** The URLs fetched, the files handed to the PDF decoder and the prompts
    sent to the completion service, in the order of the trace. *)
Definition fetches (tr : list event) : list string :=
  omap (fun e => match e with HttpGet url _ => Some url | _ => None end) tr.

Definition decodes (tr : list event) : list nat :=
  omap (fun e => match e with PdfLoad p => Some p | _ => None end) tr.

Definition invocations (tr : list event) : list string :=
  omap (fun e => match e with LLMInvoke p => Some p | _ => None end) tr.

(** The exception lines 75-76 of [extract_pdf_text] raise, if any:
    [requests.get] itself fails, or [raise_for_status] rejects the status. *)
Definition fetch_error (w : world) (url : string) : option exn :=
  match http_get w url with
  | inl e => Some e
  | inr r => HTTPError <$> status_error r
  end.

(** What line 53, [self.available = False], makes of an object. *)
Definition disabled (s : Rag.AucklandCouncilPDFProcessor) : Rag.AucklandCouncilPDFProcessor :=
  {| Rag.available := Some (PyBool false); Rag.text_splitter := Rag.text_splitter s;
     Rag.pdf_content := Rag.pdf_content s; Rag.llm := Rag.llm s;
     Rag.vector_stores := Rag.vector_stores s; Rag.embeddings := Rag.embeddings s |}.

(** The coverage invariant of chunks, in the words of the specification:
    every character of [text] occurs in at least one of [chunks]. *)
Definition covers (chunks : list Document) (text : string) : Prop :=
  forall c : ascii, c ∈ String.list_ascii_of_string text ->
    exists d, d ∈ chunks /\ c ∈ String.list_ascii_of_string (page_content d).

(** [response[key]] of a JSON object. *)
Fixpoint jfield (j : json) (key : string) : option jvalue :=
  match j with
  | [] => None
  | (k, v) :: rest => if String.eqb k key then Some v else jfield rest key
  end.

(** ** Sample runs *)

Definition pdf_magic : bytes := [Byte.x25; Byte.x50; Byte.x44; Byte.x46].

(** Every service answers; the document has one page. *)
Definition demo_world : world := {|
  http_get := fun _ => inr {| content := pdf_magic; status_error := None |};
  pdf_load := fun _ => inr [ {| page_content := "Maximum height: 8 metres" |} ];
  openai_new := fun _ => None;
  llm_invoke := fun _ _ => inr "8 metres";
  split_documents := fun _ d => inr d;
  faiss_from_documents := fun d => inr {| indexed := d |};
  retrieval_qa := fun _ _ _ _ => inr "8 metres"
|}.

Definition with_http_get (w : world) (f : string -> exn + Response) : world :=
  {| http_get := f; pdf_load := pdf_load w; openai_new := openai_new w;
     llm_invoke := llm_invoke w; split_documents := split_documents w;
     faiss_from_documents := faiss_from_documents w; retrieval_qa := retrieval_qa w |}.

Definition with_pdf_load (w : world) (f : bytes -> exn + list Document) : world :=
  {| http_get := http_get w; pdf_load := f; openai_new := openai_new w;
     llm_invoke := llm_invoke w; split_documents := split_documents w;
     faiss_from_documents := faiss_from_documents w; retrieval_qa := retrieval_qa w |}.

(** The server answers 404. *)
Definition world_404 : world :=
  with_http_get demo_world
    (fun _ => inr {| content := []; status_error := Some "404 Client Error: Not Found" |}).

(** The bytes fetched are not a PDF the decoder accepts. *)
Definition world_bad_pdf : world :=
  with_pdf_load demo_world (fun _ => inl (LibraryError "EOF marker not found")).

(** The document has no page. *)
Definition world_empty_pdf : world := with_pdf_load demo_world (fun _ => inr []).

Definition demo_llm : LLM := {| api_key := "sk-test"; temperature := 0 |}.

(** A [SimplePDFProcessor] as [__init__] leaves it when the imports worked
    and a key was given, before any file or output exists. *)
Definition simple_ready : state Simple.SimplePDFProcessor :=
  State {| Simple.available := Some (PyBool true); Simple.llm := Some (Some demo_llm) |} ∅ [].

(** An [AucklandCouncilPDFProcessor] with every attribute assigned, as the
    methods after [__init__] expect it. *)
Definition rag_ready : state Rag.AucklandCouncilPDFProcessor :=
  State {| Rag.available := Some (PyBool true);
           Rag.text_splitter := Some {| chunk_size := 1000; chunk_overlap := 200 |};
           Rag.pdf_content := Some ∅;
           Rag.llm := Some (Some demo_llm);
           Rag.vector_stores := Some ∅;
           Rag.embeddings := Some (PyClass "OpenAIEmbeddings") |} ∅ [].

(** What [AucklandCouncilPDFProcessor("sk-test")] leaves when all imports of
    the module worked. *)
Definition rag_constructed : state Rag.AucklandCouncilPDFProcessor :=
  State (disabled Rag.blank) ∅
    [Print "Error initializing LangChain components: name 'RecursiveCharacterTextSplitter' is not defined"].

Definition demo_question : string := "What is the maximum building height?".

Definition h3_url : string :=
  "https://unitaryplan.aucklandcouncil.govt.nz/images/Auckland%20Unitary%20Plan%20Operative/Chapter%20H%20Zones/H3%20Residential%20-%20Single%20House%20Zone.pdf".


Definition demo_argv : list string :=
  ["simple-pdf-processor.py"; "H3"; "What"; "is"; "the"; "maximum"; "building"; "height?"].

Definition demo_environ : gmap string string := {[ "OPENAI_API_KEY" := "sk-test" ]}.

(** ** More observations and sample runs *)

(** The JSON objects printed, in the order of the trace. *)
Definition responses (tr : list event) : list json :=
  omap (fun e => match e with PrintJson j => Some j | _ => None end) tr.

(** The keys handed to the [OpenAI] constructor. *)
Definition constructions (tr : list event) : list string :=
  omap (fun e => match e with OpenAINew k => Some k | _ => None end) tr.

(** The queries run through a retrieval chain. *)
Definition retrievals (tr : list event) : list string :=
  omap (fun e => match e with RetrievalQARun q => Some q | _ => None end) tr.

Definition with_llm_invoke (w : world) (f : LLM -> string -> exn + string) : world :=
  {| http_get := http_get w; pdf_load := pdf_load w; openai_new := openai_new w;
     llm_invoke := f; split_documents := split_documents w;
     faiss_from_documents := faiss_from_documents w; retrieval_qa := retrieval_qa w |}.

Definition with_openai_new (w : world) (f : string -> option exn) : world :=
  {| http_get := http_get w; pdf_load := pdf_load w; openai_new := f;
     llm_invoke := llm_invoke w; split_documents := split_documents w;
     faiss_from_documents := faiss_from_documents w; retrieval_qa := retrieval_qa w |}.

(** The completion service is down. *)
Definition world_llm_down : world :=
  with_llm_invoke demo_world (fun _ _ => inl (LibraryError "Connection error.")).

(** The [OpenAI] constructor rejects the key. *)
Definition world_bad_key : world :=
  with_openai_new demo_world (fun _ => Some (LibraryError "Invalid API key")).

(** The document has two pages without any text. *)
Definition world_blank_pages : world :=
  with_pdf_load demo_world
    (fun _ => inr [ {| page_content := EmptyString |}; {| page_content := EmptyString |} ]).

(** A retrieval processor that already holds an index for H3. *)
Definition rag_cached : state Rag.AucklandCouncilPDFProcessor :=
  State {| Rag.available := Some (PyBool true);
           Rag.text_splitter := Some {| chunk_size := 1000; chunk_overlap := 200 |};
           Rag.pdf_content := Some ∅;
           Rag.llm := Some (Some demo_llm);
           Rag.vector_stores :=
             Some {[ "H3" := {| indexed := [ {| page_content := "Maximum height: 8 metres" |} ] |} ]};
           Rag.embeddings := Some (PyClass "OpenAIEmbeddings") |} ∅ [].

(** The document has two pages of text. *)
Definition world_two_pages : world :=
  with_pdf_load demo_world
    (fun _ => inr [ {| page_content := "H3.6.6 Building height" |};
                    {| page_content := "Maximum height: 8 metres" |} ]).

(** [simple_ready] with an unrelated file already on disk. *)
Definition simple_with_file : state Simple.SimplePDFProcessor :=
  State (self simple_ready) {[ 0%nat := [Byte.x00] ]} [].

(** An en dash, U+2013: one code point, three bytes. *)
Definition en_dash : string :=
  String "226"%char (String "128"%char (String "147"%char EmptyString)).

(** A text of 8001 code points, 24001 bytes. *)
Definition long_text : string := str_repeat en_dash 8000 +:+ "X".

(** The document has one page, longer than the evidence may be. *)
Definition world_long_document : world :=
  with_pdf_load demo_world (fun _ => inr [ {| page_content := long_text |} ]).




(** * Properties *)

Opaque Simple.get_zone_pdf_urls Rag.get_zone_pdf_urls.

Ltac unfold_monad :=
  unfold bind, ret, raise, sys_exit, try_except, get_self, update_self, emit,
    print, call, named_temporary_file, file_write, os_unlink, pdf_loader_load,
    lookup_global, raise_for_status in *.

Ltac msimpl := repeat progress (unfold_monad; simpl in *).

(** ** Strings *)

Lemma str_prefix_length n s : (str_len (str_prefix n s) ≤ n)%nat.
Proof.
  revert n. induction s as [|c s IH]; intros n; simpl; [lia|].
  destruct (is_continuation c) eqn:Hc; simpl; rewrite ?Hc.
  - apply IH.
  - destruct n as [|n]; simpl; rewrite ?Hc; [lia|]. specialize (IH n). lia.
Qed.

Lemma str_prefix_short n s : (str_len s ≤ n)%nat -> str_prefix n s = s.
Proof.
  revert n. induction s as [|c s IH]; intros n; simpl; [done|].
  destruct (is_continuation c); intros Hlen.
  - f_equal. by apply IH.
  - destruct n as [|n]; [lia|]. f_equal. apply IH. lia.
Qed.

Lemma str_prefix_is_prefix n s : exists rest, s = str_prefix n s +:+ rest.
Proof.
  revert n. induction s as [|c s IH]; intros n; simpl; [by exists EmptyString|].
  destruct (is_continuation c).
  - destruct (IH n) as [rest Hrest]. exists rest.
    change (String c (str_prefix n s) +:+ rest) with (String c (str_prefix n s +:+ rest)).
    by rewrite <- Hrest.
  - destruct n as [|n]; [by exists (String c s)|].
    destruct (IH n) as [rest Hrest]. exists rest.
    change (String c (str_prefix n s) +:+ rest) with (String c (str_prefix n s +:+ rest)).
    by rewrite <- Hrest.
Qed.

Lemma str_prefix_length_min n s : str_len (str_prefix n s) = Nat.min n (str_len s).
Proof.
  revert n. induction s as [|c s IH]; intros n; simpl; [by rewrite Nat.min_0_r|].
  destruct (is_continuation c) eqn:Hc; simpl; rewrite ?Hc.
  - apply IH.
  - destruct n as [|n]; simpl; rewrite ?Hc; [done|]. by rewrite IH.
Qed.

Arguments str_prefix : simpl never.

(** Lengths and slices count code points, not bytes: 3000 en dashes are
    3000 characters in 9000 bytes and pass a slice of 8000 whole; a slice cuts
    between characters, never inside one. *)
Example slice_counts_code_points :
  str_len en_dash = 1%nat /\ String.length en_dash = 3%nat /\
  str_len (str_repeat en_dash 3000) = 3000%nat /\
  String.length (str_repeat en_dash 3000) = 9000%nat /\
  str_prefix 8000 (str_repeat en_dash 3000) = str_repeat en_dash 3000 /\
  str_prefix 2 ("a" +:+ en_dash +:+ "b") = "a" +:+ en_dash /\
  str_prefix 8000 long_text = str_repeat en_dash 8000.
Proof.
  repeat split; first [apply Nat.eqb_eq | apply String.eqb_eq]; vm_compute; reflexivity.
Qed.

(** ** The module namespaces *)

Lemma import_block_unbound names done name :
  name ≠ "LANGCHAIN_AVAILABLE" ->
  name ∉ names.*1 ->
  import_block names done !! name = None.
Proof.
  intros Hne Hnot. unfold import_block.
  rewrite lookup_insert_ne by done.
  assert (Hsub : name ∉ (take done names).*1).
  { intros Hin. apply Hnot. rewrite fmap_take in Hin.
    by apply (subseteq_take done (names.*1)). }
  generalize (∅ : gmap string pyval) (lookup_empty (M := gmap string) (A := pyval) name).
  induction (take done names) as [|[k v] l IH]; intros m Hm; simpl; [done|].
  apply IH.
  - intros Hin. apply Hsub. simpl. by right.
  - rewrite lookup_insert_ne; [done|]. intros ->. apply Hsub. simpl. by left.
Qed.

(** ** The truncation processor *)

Section SimpleProperties.
Variable w : world.
Variable g : gmap string pyval.

(** The query before its first effect: with a model at hand and a
    registered zone, it is the extraction followed by the rest. *)
Lemma query_zone_with_ai_unfold st z q l url :
  Simple.llm (self st) = Some (Some l) ->
  Simple.get_zone_pdf_urls !! z = Some url ->
  Simple.query_zone_with_ai w g z q st =
    match Simple.extract_pdf_text w g url st with
    | (Ok (Some text), st1) =>
        if str_truthy text then
          let prompt := Simple.build_prompt z q (str_prefix 8000 text) in
          match llm_invoke w l prompt with
          | inr answer =>
              (Ok (Some answer), State (self st1) (files st1) (trace st1 ++ [LLMInvoke prompt]))
          | inl e =>
              (Ok None, State (self st1) (files st1)
                          (trace st1 ++ [LLMInvoke prompt; Print ("Error querying AI: " +:+ exn_str e)]))
          end
        else (Ok None, st1)
    | (Ok None, st1) => (Ok None, st1)
    | (Raise e, st1) => (Raise e, st1)
    | (Exit n, st1) => (Exit n, st1)
    end.
Proof.
  intros Hl Hz. destruct st as [slf fs tr]; simpl in *.
  unfold Simple.query_zone_with_ai, Simple.get_llm.
  unfold bind at 1 2. unfold get_self at 1. simpl. rewrite Hl. unfold ret at 1. rewrite Hz.
  unfold bind at 1.
  destruct (Simple.extract_pdf_text w g url (State slf fs tr)) as [[[text|]|e|n] st1]; try done.
  simpl. destruct (str_truthy text); simpl; [|done].
  unfold_monad. simpl.
  destruct (llm_invoke w l _); simpl; [|done].
  by rewrite <- app_assoc.
Qed.

Lemma extract_pdf_text_unavailable st url v :
  Simple.available (self st) = Some v -> truthy v = false ->
  Simple.extract_pdf_text w g url st = (Ok None, st).
Proof.
  intros Hv Ht. destruct st as [slf fs tr]; simpl in *.
  unfold Simple.extract_pdf_text, Simple.get_available. unfold_monad. simpl.
  by rewrite Hv, Ht.
Qed.

(** A failed fetch: nothing is staged, nothing is decoded. *)
Lemma extract_pdf_text_fetch_error st url v e :
  Simple.available (self st) = Some v -> truthy v = true ->
  fetch_error w url = Some e ->
  Simple.extract_pdf_text w g url st =
    (Ok None, State (self st) (files st)
                (trace st ++ [HttpGet url 30; Print ("Error extracting PDF text: " +:+ exn_str e)])).
Proof.
  intros Hv Ht He. destruct st as [slf fs tr]; simpl in *.
  unfold Simple.extract_pdf_text, Simple.get_available, fetch_error in *.
  unfold_monad. simpl. rewrite Hv, Ht. simpl.
  destruct (http_get w url) as [e'|r]; simpl.
  - injection He as ->. by rewrite <- app_assoc.
  - destruct (status_error r) as [msg|]; simpl in *; [|done].
    injection He as <-. by rewrite <- app_assoc.
Qed.

(** The decoder accepts the document: the staged file is gone again. *)
Lemma extract_pdf_text_success st url v r c documents :
  Simple.available (self st) = Some v -> truthy v = true ->
  http_get w url = inr r -> status_error r = None ->
  g !! "PyPDFLoader" = Some c ->
  pdf_load w (content r) = inr documents ->
  let p := fresh (dom (files st)) in
  Simple.extract_pdf_text w g url st =
    (Ok (Some (str_join newline (map page_content documents))),
     State (self st) (files st)
       (trace st ++ [HttpGet url 30; TmpCreate p; TmpWrite p; PdfLoad p; Unlink p])).
Proof.
  intros Hv Ht Hr Hs Hc Hd p. destruct st as [slf fs tr]; simpl in *.
  assert (Hfresh : fs !! p = None) by (apply not_elem_of_dom, is_fresh).
  unfold Simple.extract_pdf_text, Simple.get_available. unfold_monad. simpl.
  rewrite Hv, Ht. simpl. rewrite Hr. simpl. rewrite Hs. simpl. rewrite Hc. msimpl.
  fold p. rewrite !lookup_insert_eq. rewrite Hd. msimpl. rewrite !lookup_insert_eq.
  rewrite insert_insert_eq, delete_insert_id by done.
  by rewrite <- !app_assoc.
Qed.

(** The decoder rejects the document: the handler runs, and [os.unlink]
    was never reached, so the staged file stays on disk. *)
Lemma extract_pdf_text_decode_error st url v r c e :
  Simple.available (self st) = Some v -> truthy v = true ->
  http_get w url = inr r -> status_error r = None ->
  g !! "PyPDFLoader" = Some c ->
  pdf_load w (content r) = inl e ->
  let p := fresh (dom (files st)) in
  Simple.extract_pdf_text w g url st =
    (Ok None,
     State (self st) (<[p := content r]> (files st))
       (trace st ++ [HttpGet url 30; TmpCreate p; TmpWrite p; PdfLoad p;
                     Print ("Error extracting PDF text: " +:+ exn_str e)])).
Proof.
  intros Hv Ht Hr Hs Hc Hd p. destruct st as [slf fs tr]; simpl in *.
  unfold Simple.extract_pdf_text, Simple.get_available. unfold_monad. simpl.
  rewrite Hv, Ht. simpl. rewrite Hr. simpl. rewrite Hs. simpl. rewrite Hc. msimpl.
  fold p. rewrite !lookup_insert_eq. rewrite Hd. msimpl.
  rewrite insert_insert_eq.
  by rewrite <- !app_assoc.
Qed.

(** Extraction never touches the object and never calls the completion
    service. *)
Lemma extract_pdf_text_frame st url :
  let st1 := (Simple.extract_pdf_text w g url st).2 in
  self st1 = self st /\ invocations (trace st1) = invocations (trace st).
Proof.
  destruct st as [slf fs tr]; simpl.
  unfold Simple.extract_pdf_text, Simple.get_available, invocations. msimpl.
  destruct (Simple.available slf) as [v|]; msimpl; [|done].
  destruct (truthy v); msimpl; [|done].
  destruct (http_get w url) as [e|r]; msimpl; [by rewrite !omap_app, !app_nil_r|].
  destruct (status_error r); msimpl; [by rewrite !omap_app, !app_nil_r|].
  destruct (g !! "PyPDFLoader"); msimpl; [|by rewrite !omap_app, !app_nil_r].
  rewrite !lookup_insert_eq.
  destruct (pdf_load w (content r)); msimpl; [by rewrite !omap_app, !app_nil_r|].
  rewrite !lookup_insert_eq. msimpl.
  by rewrite !omap_app, !app_nil_r.
Qed.

(** An available processor makes exactly one request, to the URL it is
    given, whatever happens next. *)
Lemma extract_pdf_text_fetches st url v :
  Simple.available (self st) = Some v -> truthy v = true ->
  fetches (trace (Simple.extract_pdf_text w g url st).2) = fetches (trace st) ++ [url].
Proof.
  intros Hv Ht. destruct st as [slf fs tr]; simpl in *.
  unfold Simple.extract_pdf_text, Simple.get_available, fetches. msimpl.
  rewrite Hv. msimpl. rewrite Ht. msimpl.
  destruct (http_get w url) as [e|r]; msimpl; [by rewrite !omap_app, !app_nil_r|].
  destruct (status_error r); msimpl; [by rewrite !omap_app, !app_nil_r|].
  destruct (g !! "PyPDFLoader"); msimpl; [|by rewrite !omap_app, !app_nil_r].
  rewrite !lookup_insert_eq.
  destruct (pdf_load w (content r)); msimpl; [by rewrite !omap_app, !app_nil_r|].
  rewrite !lookup_insert_eq. msimpl.
  by rewrite !omap_app, !app_nil_r.
Qed.

Lemma query_zone_with_ai_fetches st z q url v l :
  Simple.available (self st) = Some v -> truthy v = true ->
  Simple.llm (self st) = Some (Some l) ->
  Simple.get_zone_pdf_urls !! z = Some url ->
  fetches (trace (Simple.query_zone_with_ai w g z q st).2) = fetches (trace st) ++ [url].
Proof.
  intros Hv Ht Hl Hz.
  rewrite (query_zone_with_ai_unfold st z q l url Hl Hz).
  pose proof (extract_pdf_text_fetches st url v Hv Ht) as Hf.
  destruct (Simple.extract_pdf_text w g url st) as [[[text|]|e|n] st1]; simpl in *; try done.
  destruct (str_truthy text); simpl; [|done].
  unfold fetches in *.
  destruct (llm_invoke w l _); simpl; rewrite omap_app, Hf; simpl; by rewrite app_nil_r.
Qed.

Lemma query_zone_with_ai_unknown_zone st z q l :
  Simple.llm (self st) = Some l ->
  Simple.get_zone_pdf_urls !! z = None ->
  Simple.query_zone_with_ai w g z q st = (Ok None, st).
Proof.
  intros Hl Hz. destruct st as [slf fs tr]; simpl in *.
  unfold Simple.query_zone_with_ai, Simple.get_llm. unfold_monad. simpl.
  rewrite Hl. destruct l; [|done]. by rewrite Hz.
Qed.

(** A run of [main] that comes to its end is the constructor on a blank
    object, then the query on what the constructor left, then the response
    dict built from what the query returned, printed last. *)
Lemma main_returns argv environ st st' :
  Simple.main w g argv environ st = (Ok tt, st') ->
  exists s0 s1 result,
    Simple.__init__ w g (environ !! "OPENAI_API_KEY")
      (State Simple.blank (files st) (trace st)) = (Ok tt, s0) /\
    Simple.query_zone_with_ai w g (nth 1 argv EmptyString) (str_join " " (drop 2 argv)) s0 =
      (Ok result, s1) /\
    st' = State (self s1) (files s1)
            (trace s1 ++
             [PrintJson (Simple.response (nth 1 argv EmptyString)
                           (str_join " " (drop 2 argv)) result)]).
Proof.
  unfold Simple.main. intros Hrun.
  destruct (length argv <? 3)%nat; [by msimpl|].
  destruct (negb (opt_str_truthy (environ !! "OPENAI_API_KEY"))); [by msimpl|].
  unfold bind at 1 in Hrun. unfold update_self at 1 in Hrun.
  unfold bind at 1 in Hrun. simpl in Hrun.
  destruct (Simple.__init__ w g _ _) as [[[]|e|n] s0] eqn:Hinit; try done.
  unfold bind at 1 in Hrun. unfold Simple.get_available at 1 in Hrun.
  unfold bind at 1, get_self at 1 in Hrun.
  destruct (Simple.available (self s0)) as [av|]; [|done].
  unfold ret at 1 in Hrun.
  destruct (negb (truthy av)); [by msimpl|].
  unfold bind at 1 in Hrun.
  destruct (Simple.query_zone_with_ai w g _ _ s0) as [[result|e|n] s1] eqn:Hq; try done.
  unfold emit in Hrun. injection Hrun as <-.
  by exists s0, s1, result.
Qed.
End SimpleProperties.

(** ** The retrieval processor *)

Lemma rag_globals_unbound done name :
  name ∈ ["RecursiveCharacterTextSplitter"; "FAISS"; "RetrievalQA"] ->
  Rag.globals done !! name = None.
Proof.
  intros Hin. apply import_block_unbound.
  - intros ->. revert Hin. apply (bool_decide_unpack _). vm_compute. exact I.
  - rewrite !elem_of_cons, elem_of_nil in Hin.
    destruct Hin as [->|[->|[->|[]]]]; apply (bool_decide_unpack _); vm_compute; exact I.
Qed.

Lemma rag_globals_loader done :
  Rag.globals done !! "PyPDFLoader" =
    if bool_decide (1 ≤ done)%nat then Some (PyClass "PyPDFLoader") else None.
Proof.
  destruct done as [|[|[|n]]]; try (vm_compute; reflexivity).
  unfold Rag.globals, import_block. rewrite lookup_insert_ne by done.
  simpl. rewrite take_nil. vm_compute. reflexivity.
Qed.

Section RagProperties.
Variable w : world.
Variable g : gmap string pyval.

(** The import of [PyPDFLoader] failed: evaluating the name on line 29
    raises before any attribute exists. *)
Lemma rag_init_raises st key :
  g !! "PyPDFLoader" = None ->
  Rag.__init__ w g key st = (Raise (NameError "PyPDFLoader"), st).
Proof.
  intros Hg. destruct st as [slf fs tr].
  unfold Rag.__init__. unfold_monad. by rewrite Hg.
Qed.

(** [PyPDFLoader] is bound: line 36 evaluates a name that is bound nowhere,
    and the handler of lines 51-53 runs. *)
Lemma rag_init_disables st key c :
  g !! "PyPDFLoader" = Some c ->
  g !! "RecursiveCharacterTextSplitter" = None ->
  Rag.__init__ w g key st =
    (Ok tt,
     State (disabled (self st)) (files st)
       (trace st ++
        (if is_none c then [Print "LangChain not available, using basic processing"]
         else [Print ("Error initializing LangChain components: " +:+
                      exn_str (NameError "RecursiveCharacterTextSplitter"))]))).
Proof.
  intros Hc Hs. destruct st as [slf fs tr].
  unfold Rag.__init__, Rag.getattr, Rag.set_available. unfold_monad. rewrite Hc. simpl.
  destruct (is_none c); simpl; [done|].
  by rewrite Hs.
Qed.

Lemma load_pdf_from_url_unavailable st url v :
  Rag.available (self st) = Some v -> truthy v = false ->
  Rag.load_pdf_from_url w g url st = (Ok [], st).
Proof.
  intros Hv Ht. destruct st as [slf fs tr]; simpl in *.
  unfold Rag.load_pdf_from_url, Rag.getattr. unfold_monad. simpl.
  by rewrite Hv, Ht.
Qed.

Lemma create_vector_store_unavailable st z v :
  Rag.available (self st) = Some v -> truthy v = false ->
  Rag.create_vector_store w g z st = (Ok false, st).
Proof.
  intros Hv Ht. destruct st as [slf fs tr]; simpl in *.
  unfold Rag.create_vector_store, Rag.getattr. unfold_monad. simpl.
  by rewrite Hv, Ht.
Qed.

Lemma query_zone_planning_rules_unavailable st z q v :
  Rag.available (self st) = Some v -> truthy v = false ->
  Rag.query_zone_planning_rules w g z q st = (Ok None, st).
Proof.
  intros Hv Ht. destruct st as [slf fs tr]; simpl in *.
  unfold Rag.query_zone_planning_rules, Rag.getattr. unfold_monad. simpl.
  by rewrite Hv, Ht.
Qed.

(** No model: line 141 returns before anything else happens. *)
Lemma query_zone_planning_rules_no_llm st z q v :
  Rag.available (self st) = Some v -> truthy v = true ->
  Rag.llm (self st) = Some None ->
  Rag.query_zone_planning_rules w g z q st = (Ok None, st).
Proof.
  intros Hv Ht Hl. destruct st as [slf fs tr]; simpl in *.
  unfold Rag.query_zone_planning_rules, Rag.getattr. unfold_monad. simpl.
  rewrite Hv, Ht. simpl. by rewrite Hl.
Qed.

(** An available processor with a model and no index for the zone yet:
    the query is [create_vector_store] followed by the rest. *)
Lemma query_zone_planning_rules_unfold st z q v l stores :
  Rag.available (self st) = Some v -> truthy v = true ->
  Rag.llm (self st) = Some (Some l) ->
  Rag.vector_stores (self st) = Some stores ->
  stores !! z = None ->
  forall st1, Rag.create_vector_store w g z st = (Ok false, st1) ->
  Rag.query_zone_planning_rules w g z q st = (Ok None, st1).
Proof.
  intros Hv Ht Hl Hvs Hz st1 Hc. destruct st as [slf fs tr]; simpl in *.
  unfold Rag.query_zone_planning_rules, Rag.getattr. unfold_monad. simpl.
  rewrite Hv, Ht. simpl. rewrite Hl. simpl. rewrite Hvs, Hz.
  by rewrite Hc.
Qed.

Lemma create_vector_store_unknown_zone st z v stores :
  Rag.available (self st) = Some v -> truthy v = true ->
  Rag.vector_stores (self st) = Some stores ->
  stores !! z = None ->
  Rag.get_zone_pdf_urls !! z = None ->
  Rag.create_vector_store w g z st = (Ok false, st).
Proof.
  intros Hv Ht Hvs Hz Hu. destruct st as [slf fs tr]; simpl in *.
  unfold Rag.create_vector_store, Rag.getattr. unfold_monad. simpl.
  rewrite Hv, Ht. simpl. by rewrite Hvs, Hz, Hu.
Qed.


Lemma create_vector_store_cached st z v stores vs :
  Rag.available (self st) = Some v -> truthy v = true ->
  Rag.vector_stores (self st) = Some stores ->
  stores !! z = Some vs ->
  Rag.create_vector_store w g z st = (Ok true, st).
Proof.
  intros Hv Ht Hvs Hz. destruct st as [slf fs tr]; simpl in *.
  unfold Rag.create_vector_store, Rag.getattr. unfold_monad. simpl.
  rewrite Hv, Ht. simpl. by rewrite Hvs, Hz.
Qed.
End RagProperties.

(** The constructor on a fresh object, for each outcome of the imports. *)
Lemma rag_init_outcome (w : world) (done : nat) (key : option string)
    (st : state Rag.AucklandCouncilPDFProcessor) :
  Rag.__init__ w (Rag.globals done) key st =
    if bool_decide (1 ≤ done)%nat then
      (Ok tt,
       State (disabled (self st)) (files st)
         (trace st ++ [Print ("Error initializing LangChain components: " +:+
                              exn_str (NameError "RecursiveCharacterTextSplitter"))]))
    else (Raise (NameError "PyPDFLoader"), st).
Proof.
  pose proof (rag_globals_loader done) as Hloader.
  destruct done as [|n]; simpl in *.
  - by apply rag_init_raises.
  - rewrite (rag_init_disables w _ st key _ Hloader); [done|].
    apply rag_globals_unbound. set_solver.
Qed.

(** The demo objects are what the constructors build. *)
Example simple_init_demo :
  Simple.__init__ demo_world (Simple.globals 2) (Some "sk-test") (State Simple.blank ∅ []) =
    (Ok tt, State (self simple_ready) ∅ [OpenAINew "sk-test"]).
Proof. vm_compute. reflexivity. Qed.

Example rag_init_demo :
  Rag.__init__ demo_world (Rag.globals 3) (Some "sk-test") (State Rag.blank ∅ []) =
    (Ok tt, rag_constructed).
Proof. vm_compute. reflexivity. Qed.

(** The retrieval script never gets to print a response: [main] leaves
    through [sys.exit(1)] or through the [NameError] of the constructor. *)
Lemma rag_main_never_returns (w : world) (done : nat) (argv : list string)
    (environ : gmap string string) (st : state Rag.AucklandCouncilPDFProcessor) :
  (Rag.main w (Rag.globals done) argv environ st).1 = Exit 1 \/
  (Rag.main w (Rag.globals done) argv environ st).1 = Raise (NameError "PyPDFLoader").
Proof.
  destruct (Rag.main w (Rag.globals done) argv environ st) as [r st'] eqn:Hrun; simpl.
  unfold Rag.main in Hrun.
  destruct (length argv <? 3)%nat; [left; msimpl; congruence|].
  destruct (negb (opt_str_truthy (environ !! "OPENAI_API_KEY"))); [left; msimpl; congruence|].
  unfold bind at 1 in Hrun. unfold update_self at 1 in Hrun. unfold bind at 1 in Hrun.
  rewrite rag_init_outcome in Hrun.
  destruct (bool_decide (1 ≤ done)%nat); [left|right].
  - unfold Rag.getattr in Hrun. msimpl. congruence.
  - congruence.
Qed.

(** The same for the whole script, whatever the import block did. *)
Lemma rag_script_never_returns (w : world) (done : nat) (import_error : string)
    (argv : list string) (environ : gmap string string)
    (st : state Rag.AucklandCouncilPDFProcessor) :
  (Rag.script w done import_error argv environ st).1 = Exit 1 \/
  (Rag.script w done import_error argv environ st).1 = Raise (NameError "PyPDFLoader").
Proof.
  unfold Rag.script, Rag.load_module.
  destruct (bool_decide (3 ≤ done)%nat); unfold bind, ret, print, emit; simpl;
    apply rag_main_never_returns.
Qed.

(** The import of [PyPDFLoader] failed: the constructor raises, no object
    comes out of it. *)
Lemma retrieval_processor_not_constructed (w : world) (key : option string)
    (st : state Rag.AucklandCouncilPDFProcessor) :
  Rag.__init__ w (Rag.globals 0) key st = (Raise (NameError "PyPDFLoader"), st).
Proof. apply rag_init_raises. apply (rag_globals_loader 0). Qed.

(** On every constructed object the chunking step returns no chunk and
    fetches nothing. *)
Lemma load_pdf_from_url_after_init (w w' : world) (done : nat) (key : option string)
    (st st' : state Rag.AucklandCouncilPDFProcessor) (url : string) :
  Rag.__init__ w (Rag.globals done) key st = (Ok tt, st') ->
  Rag.load_pdf_from_url w' (Rag.globals done) url st' = (Ok [], st').
Proof.
  intros Hinit.
  pose proof (rag_globals_loader done) as Hloader.
  destruct done as [|n]; simpl in Hloader.
  - by rewrite (rag_init_raises w _ st key Hloader) in Hinit.
  - rewrite (rag_init_disables w _ st key _ Hloader) in Hinit
      by (apply rag_globals_unbound; set_solver).
    simpl in Hinit. injection Hinit as <-.
    by apply (load_pdf_from_url_unavailable w' _ _ url (PyBool false)).
Qed.

(** Extraction of the long document, by [extract_pdf_text_success]. *)
Example long_document_extraction :
  Simple.extract_pdf_text world_long_document (Simple.globals 2) h3_url simple_ready =
    (Ok (Some long_text),
     State (self simple_ready) ∅
       [HttpGet h3_url 30; TmpCreate 0; TmpWrite 0; PdfLoad 0; Unlink 0]).
Proof.
  assert (Hloader : Simple.globals 2 !! "PyPDFLoader" = Some (PyClass "PyPDFLoader"))
    by (vm_compute; reflexivity).
  exact (extract_pdf_text_success world_long_document (Simple.globals 2) simple_ready h3_url
           (PyBool true) {| content := pdf_magic; status_error := None |}
           (PyClass "PyPDFLoader") [ {| page_content := long_text |} ]
           eq_refl eq_refl eq_refl eq_refl Hloader eq_refl).
Qed.

(** * The claims *)

(** C1 (the code departs from it). The processor built by
    [AucklandCouncilPDFProcessor("sk-test")] splits the document of zone H3,
    whose text is "Maximum height: 8 metres", into no chunk at all: the
    characters of the text are in no chunk. *)
Theorem chunking_yields_no_chunk :
  Rag.__init__ demo_world (Rag.globals 3) (Some "sk-test") (State Rag.blank ∅ []) =
    (Ok tt, rag_constructed) /\
  Rag.load_pdf_from_url demo_world (Rag.globals 3) h3_url rag_constructed =
    (Ok [], rag_constructed) /\
  pdf_load demo_world pdf_magic = inr [ {| page_content := "Maximum height: 8 metres" |} ] /\
  ~ covers [] "Maximum height: 8 metres".
Proof.
  split; [vm_compute; reflexivity|]. split; [vm_compute; reflexivity|]. split; [reflexivity|].
  intros Hcov. destruct (Hcov "M"%char) as (d & Hd & _).
  - simpl. by left.
  - by apply elem_of_nil in Hd.
Qed.

(** C2. A zone code outside the registry of a processor: the query returns
    [None] and leaves the state as it was, so nothing was fetched, staged or
    printed.  A zone code inside the registry: the one request the query
    makes goes to the URL the registry gives for that code. *)
Theorem unknown_zone_no_fetch (w : world) (z q : string) :
  (forall g (st : state Simple.SimplePDFProcessor) l,
     Simple.llm (self st) = Some l ->
     Simple.get_zone_pdf_urls !! z = None ->
     Simple.query_zone_with_ai w g z q st = (Ok None, st)) /\
  (forall g (st : state Rag.AucklandCouncilPDFProcessor) v,
     Rag.available (self st) = Some v ->
     (truthy v = true ->
      exists l stores, Rag.llm (self st) = Some l /\
        Rag.vector_stores (self st) = Some stores /\ stores !! z = None) ->
     Rag.get_zone_pdf_urls !! z = None ->
     Rag.query_zone_planning_rules w g z q st = (Ok None, st)) /\
  (forall g (st : state Simple.SimplePDFProcessor) v l url,
     Simple.available (self st) = Some v ->
     truthy v = true ->
     Simple.llm (self st) = Some (Some l) ->
     Simple.get_zone_pdf_urls !! z = Some url ->
     fetches (trace (Simple.query_zone_with_ai w g z q st).2) = fetches (trace st) ++ [url]).
Proof.
  split; [|split].
  - intros g st l. apply query_zone_with_ai_unknown_zone.
  - intros g st v Hv Hattrs Hz.
    destruct (truthy v) eqn:Ht.
    + destruct (Hattrs eq_refl) as (l & stores & Hl & Hvs & Hmiss).
      destruct l as [l|].
      * apply (query_zone_planning_rules_unfold w g st z q v l stores); try done.
        by apply (create_vector_store_unknown_zone w g st z v stores).
      * by apply (query_zone_planning_rules_no_llm w g st z q v).
    + by apply (query_zone_planning_rules_unavailable w g st z q v).
  - intros g st v l url. apply query_zone_with_ai_fetches.
Qed.

Lemma unknown_zone_no_fetch_witness :
  Simple.get_zone_pdf_urls !! "ZZZ" = None /\
  Rag.get_zone_pdf_urls !! "ZZZ" = None /\
  Simple.get_zone_pdf_urls !! "H3" = Some h3_url /\
  Simple.query_zone_with_ai demo_world (Simple.globals 2) "ZZZ" demo_question simple_ready =
    (Ok None, simple_ready) /\
  Rag.query_zone_planning_rules demo_world (Rag.globals 3) "ZZZ" demo_question rag_constructed =
    (Ok None, rag_constructed) /\
  Rag.query_zone_planning_rules demo_world (Rag.globals 3) "ZZZ" demo_question rag_ready =
    (Ok None, rag_ready) /\
  fetches (trace (Simple.query_zone_with_ai demo_world (Simple.globals 2) "H3" demo_question
                    simple_ready).2) = fetches (trace simple_ready) ++ [h3_url].
Proof.
  split; [vm_compute; reflexivity|]. split; [vm_compute; reflexivity|].
  split; [vm_compute; reflexivity|].
  destruct (unknown_zone_no_fetch demo_world "ZZZ" demo_question) as (Hsimple & Hrag & _).
  destruct (unknown_zone_no_fetch demo_world "H3" demo_question) as (_ & _ & Hknown).
  split.
  { apply (Hsimple (Simple.globals 2) simple_ready (Some demo_llm)).
    - reflexivity.
    - vm_compute; reflexivity. }
  split.
  { apply (Hrag (Rag.globals 3) rag_constructed (PyBool false)).
    - reflexivity.
    - intros Ht. discriminate Ht.
    - vm_compute; reflexivity. }
  split.
  { apply (Hrag (Rag.globals 3) rag_ready (PyBool true)).
    - reflexivity.
    - intros _. exists (Some demo_llm), ∅. split; [reflexivity|]. split; [reflexivity|].
      apply lookup_empty.
    - vm_compute; reflexivity. }
  apply (Hknown (Simple.globals 2) simple_ready (PyBool true) demo_llm h3_url).
  - reflexivity.
  - reflexivity.
  - reflexivity.
  - vm_compute; reflexivity.
Defined.

(** C3 (the code departs from it). The decoder rejects the fetched bytes:
    the handler of [extract_pdf_text] returns [None] and the file staged for
    the decoder is still on disk, so the temporary files after the call are
    not those before it. *)
Theorem decode_failure_leaves_tmp_file :
  exists st',
    Simple.extract_pdf_text world_bad_pdf (Simple.globals 2) h3_url simple_ready = (Ok None, st') /\
    files simple_ready = ∅ /\
    files st' = {[ 0%nat := pdf_magic ]} /\
    dom (files st') ≠ dom (files simple_ready).
Proof.
  exists (State (self simple_ready) {[ 0%nat := pdf_magic ]}
            [HttpGet h3_url 30; TmpCreate 0; TmpWrite 0; PdfLoad 0;
             Print "Error extracting PDF text: EOF marker not found"]).
  split; [vm_compute; reflexivity|]. split; [reflexivity|]. split; [reflexivity|].
  simpl. rewrite dom_singleton_L, dom_empty_L. set_solver.
Qed.




(** C5. Under the truncation strategy the evidence placed in the prompt is
    the first 8000 characters of the extracted text: it is never longer than
    8000 characters, and a text shorter than 8000 characters is passed
    whole.  (8000 is the literal of line 112.) *)
Theorem truncation_evidence_bounded (w : world) (g : gmap string pyval)
    (st st1 : state Simple.SimplePDFProcessor) (z q url text : string) (l : LLM) :
  Simple.llm (self st) = Some (Some l) ->
  Simple.get_zone_pdf_urls !! z = Some url ->
  Simple.extract_pdf_text w g url st = (Ok (Some text), st1) ->
  str_truthy text = true ->
  exists evidence : string,
    invocations (trace (Simple.query_zone_with_ai w g z q st).2) =
      invocations (trace st) ++ [Simple.build_prompt z q evidence] /\
    evidence = str_prefix 8000 text /\
    (str_len evidence ≤ 8000)%nat /\
    ((str_len text < 8000)%nat -> evidence = text).
Proof.
  intros Hl Hz Hx Ht. exists (str_prefix 8000 text).
  split; [|split; [done|split]].
  - rewrite (query_zone_with_ai_unfold w g st z q l url Hl Hz), Hx, Ht.
    pose proof (extract_pdf_text_frame w g st url) as [_ Hinv].
    rewrite Hx in Hinv. simpl in Hinv.
    unfold invocations in *.
    destruct (llm_invoke w l _); simpl; rewrite !omap_app, Hinv; simpl; by rewrite ?app_nil_r.
  - apply str_prefix_length.
  - intros Hlt. apply str_prefix_short. lia.
Qed.

Lemma truncation_evidence_bounded_witness :
  Simple.llm (self simple_ready) = Some (Some demo_llm) /\
  Simple.get_zone_pdf_urls !! "H3" = Some h3_url /\
  str_truthy long_text = true /\
  str_len long_text = 8001%nat /\
  str_prefix 8000 long_text = str_repeat en_dash 8000 /\
  exists evidence : string,
    invocations (trace (Simple.query_zone_with_ai world_long_document (Simple.globals 2) "H3"
                          demo_question simple_ready).2) =
      invocations (trace simple_ready) ++
        [Simple.build_prompt "H3" demo_question evidence] /\
    evidence = str_prefix 8000 long_text /\
    (str_len evidence ≤ 8000)%nat /\
    ((str_len long_text < 8000)%nat -> evidence = long_text).
Proof.
  split; [reflexivity|]. split; [vm_compute; reflexivity|].
  split; [vm_compute; reflexivity|].
  split; [apply Nat.eqb_eq; vm_compute; reflexivity|].
  split; [apply String.eqb_eq; vm_compute; reflexivity|].
  apply (truncation_evidence_bounded world_long_document (Simple.globals 2) simple_ready
           (State (self simple_ready) ∅
              [HttpGet h3_url 30; TmpCreate 0; TmpWrite 0; PdfLoad 0; Unlink 0])
           "H3" demo_question h3_url long_text demo_llm).
  - reflexivity.
  - vm_compute; reflexivity.
  - exact long_document_extraction.
  - vm_compute; reflexivity.
Defined.

(** C6. When the fetch fails (the request itself, or an HTTP error status),
    the query ends with no answer; the fetch error is reported in the
    diagnostic line the handler prints; no file is staged, the decoder is not
    run and the completion service is not called. *)
Theorem fetch_failure_fails_query (w : world) (g : gmap string pyval)
    (st : state Simple.SimplePDFProcessor) (z q url : string) (v : pyval) (l : LLM) (e : exn) :
  Simple.available (self st) = Some v ->
  truthy v = true ->
  Simple.llm (self st) = Some (Some l) ->
  Simple.get_zone_pdf_urls !! z = Some url ->
  fetch_error w url = Some e ->
  exists st',
    Simple.query_zone_with_ai w g z q st = (Ok None, st') /\
    trace st' = trace st ++ [HttpGet url 30; Print ("Error extracting PDF text: " +:+ exn_str e)] /\
    files st' = files st /\
    decodes (trace st') = decodes (trace st) /\
    invocations (trace st') = invocations (trace st).
Proof.
  intros Hv Ht Hl Hz He. eexists. split.
  - rewrite (query_zone_with_ai_unfold w g st z q l url Hl Hz).
    by rewrite (extract_pdf_text_fetch_error w g st url v e Hv Ht He).
  - simpl. unfold decodes, invocations. rewrite !omap_app. simpl.
    by rewrite !app_nil_r.
Qed.

Lemma fetch_failure_fails_query_witness :
  Simple.available (self simple_ready) = Some (PyBool true) /\
  truthy (PyBool true) = true /\
  Simple.llm (self simple_ready) = Some (Some demo_llm) /\
  Simple.get_zone_pdf_urls !! "H3" = Some h3_url /\
  fetch_error world_404 h3_url = Some (HTTPError "404 Client Error: Not Found") /\
  exists st',
    Simple.query_zone_with_ai world_404 (Simple.globals 2) "H3"
      demo_question simple_ready = (Ok None, st') /\
    trace st' = trace simple_ready ++
      [HttpGet h3_url 30;
       Print ("Error extracting PDF text: " +:+ exn_str (HTTPError "404 Client Error: Not Found"))] /\
    files st' = files simple_ready /\
    decodes (trace st') = decodes (trace simple_ready) /\
    invocations (trace st') = invocations (trace simple_ready).
Proof.
  split; [reflexivity|]. split; [reflexivity|]. split; [reflexivity|].
  split; [vm_compute; reflexivity|]. split; [reflexivity|].
  apply (fetch_failure_fails_query world_404 (Simple.globals 2) simple_ready "H3"
           demo_question h3_url (PyBool true) demo_llm).
  - reflexivity.
  - reflexivity.
  - reflexivity.
  - vm_compute; reflexivity.
  - reflexivity.
Defined.

(** C7, as stated, fails: the response the truncation script prints for a
    successful query has a [result] field and an [error] field. *)
Lemma response_carries_both_fields :
  exists st j,
    Simple.main demo_world (Simple.globals 2) demo_argv demo_environ (State Simple.blank ∅ []) =
      (Ok tt, st) /\
    last (trace st) = Some (PrintJson j) /\
    jfield j "success" = Some (JBool true) /\
    jfield j "result" = Some (JStr "8 metres") /\
    jfield j "error" = Some JNull.
Proof.
  eexists. eexists. split; [vm_compute; reflexivity|].
  split; [reflexivity|]. repeat split.
Qed.

(** C7, amended. A run of the truncation script that comes to the end of
    [main] has printed last one JSON object, built from what
    [query_zone_with_ai] returned on the object the constructor left.  The
    object has the five fields [success], [zone_code], [query], [result] and
    [error], always all five; exactly one of [result] and [error] is not
    null: when the query returned an answer, [success] is true, [result] is
    that answer and [error] is null; when it returned [None], [success] is
    false, [result] is null and [error] is the failure reason. *)
Theorem response_shape (w : world) (g : gmap string pyval) (argv : list string)
    (environ : gmap string string) (st st' : state Simple.SimplePDFProcessor) :
  Simple.main w g argv environ st = (Ok tt, st') ->
  exists (s0 s1 : state Simple.SimplePDFProcessor) (result : option string) (j : json),
    Simple.__init__ w g (environ !! "OPENAI_API_KEY")
      (State Simple.blank (files st) (trace st)) = (Ok tt, s0) /\
    Simple.query_zone_with_ai w g (nth 1 argv EmptyString) (str_join " " (drop 2 argv)) s0 =
      (Ok result, s1) /\
    st' = State (self s1) (files s1) (trace s1 ++ [PrintJson j]) /\
    last (trace st') = Some (PrintJson j) /\
    j = Simple.response (nth 1 argv EmptyString) (str_join " " (drop 2 argv)) result /\
    j.*1 = ["success"; "zone_code"; "query"; "result"; "error"] /\
    jfield j "zone_code" = Some (JStr (nth 1 argv EmptyString)) /\
    jfield j "query" = Some (JStr (str_join " " (drop 2 argv))) /\
    match result with
    | Some answer =>
        jfield j "success" = Some (JBool true) /\
        jfield j "result" = Some (JStr answer) /\ jfield j "error" = Some JNull
    | None =>
        jfield j "success" = Some (JBool false) /\
        jfield j "result" = Some JNull /\
        jfield j "error" = Some (JStr "Failed to process query")
    end.
Proof.
  intros Hrun.
  destruct (main_returns w g argv environ st st' Hrun) as (s0 & s1 & result & Hinit & Hq & ->).
  exists s0, s1, result. eexists.
  split; [exact Hinit|]. split; [exact Hq|]. split; [reflexivity|].
  split; [simpl; by rewrite last_snoc|]. split; [reflexivity|].
  destruct result; repeat split.
Qed.

Lemma response_shape_witness :
  exists st',
    Simple.main demo_world (Simple.globals 2) demo_argv demo_environ (State Simple.blank ∅ []) =
      (Ok tt, st') /\
    exists (s0 s1 : state Simple.SimplePDFProcessor) (result : option string) (j : json),
      Simple.__init__ demo_world (Simple.globals 2) (demo_environ !! "OPENAI_API_KEY")
        (State Simple.blank (files (State Simple.blank ∅ [])) (trace (State Simple.blank ∅ []))) =
        (Ok tt, s0) /\
      Simple.query_zone_with_ai demo_world (Simple.globals 2) (nth 1 demo_argv EmptyString)
        (str_join " " (drop 2 demo_argv)) s0 = (Ok result, s1) /\
      st' = State (self s1) (files s1) (trace s1 ++ [PrintJson j]) /\
      last (trace st') = Some (PrintJson j) /\
      j = Simple.response (nth 1 demo_argv EmptyString) (str_join " " (drop 2 demo_argv)) result /\
      j.*1 = ["success"; "zone_code"; "query"; "result"; "error"] /\
      jfield j "zone_code" = Some (JStr (nth 1 demo_argv EmptyString)) /\
      jfield j "query" = Some (JStr (str_join " " (drop 2 demo_argv))) /\
      match result with
      | Some answer =>
          jfield j "success" = Some (JBool true) /\
          jfield j "result" = Some (JStr answer) /\ jfield j "error" = Some JNull
      | None =>
          jfield j "success" = Some (JBool false) /\
          jfield j "result" = Some JNull /\
          jfield j "error" = Some (JStr "Failed to process query")
      end.
Proof.
  eexists. split; [vm_compute; reflexivity|].
  eapply (response_shape demo_world (Simple.globals 2) demo_argv demo_environ
            (State Simple.blank ∅ [])).
  vm_compute; reflexivity.
Defined.

(** C8. Whenever the initializer of [AucklandCouncilPDFProcessor] returns,
    it has run its exception handler (line 36 names a text splitter the
    module never binds) and left [available] false; every query on the object
    then returns [None] and does nothing else. *)
Theorem retrieval_processor_never_available (w : world) (done : nat) (key : option string)
    (st st' : state Rag.AucklandCouncilPDFProcessor) :
  Rag.__init__ w (Rag.globals done) key st = (Ok tt, st') ->
  Rag.available (self st') = Some (PyBool false) /\
  trace st' = trace st ++
    [Print ("Error initializing LangChain components: " +:+
            exn_str (NameError "RecursiveCharacterTextSplitter"))] /\
  forall (w' : world) (z q : string) (s : state Rag.AucklandCouncilPDFProcessor),
    self s = self st' ->
    Rag.query_zone_planning_rules w' (Rag.globals done) z q s = (Ok None, s).
Proof.
  intros Hinit.
  pose proof (rag_globals_loader done) as Hloader.
  destruct done as [|n]; simpl in Hloader.
  - by rewrite (rag_init_raises w _ st key Hloader) in Hinit.
  - rewrite (rag_init_disables w _ st key _ Hloader) in Hinit
      by (apply rag_globals_unbound; set_solver).
    simpl in Hinit. injection Hinit as <-. simpl.
    split; [done|]. split; [done|].
    intros w' z q s Hs.
    apply (query_zone_planning_rules_unavailable w' _ s z q (PyBool false)); [|done].
    by rewrite Hs.
Qed.

Lemma retrieval_processor_never_available_witness :
  Rag.__init__ demo_world (Rag.globals 3) (Some "sk-test") (State Rag.blank ∅ []) =
    (Ok tt, rag_constructed) /\
  Rag.available (self rag_constructed) = Some (PyBool false) /\
  trace rag_constructed = [] ++
    [Print ("Error initializing LangChain components: " +:+
            exn_str (NameError "RecursiveCharacterTextSplitter"))] /\
  forall (w' : world) (z q : string) (s : state Rag.AucklandCouncilPDFProcessor),
    self s = self rag_constructed ->
    Rag.query_zone_planning_rules w' (Rag.globals 3) z q s = (Ok None, s).
Proof.
  split; [vm_compute; reflexivity|].
  apply (retrieval_processor_never_available demo_world 3 (Some "sk-test")
           (State Rag.blank ∅ []) rag_constructed).
  vm_compute; reflexivity.
Defined.

(** C9. In the truncation processor an extraction that yields the empty
    text is a failure: the query returns [None] right after the extraction
    and the completion service is not called. *)
Theorem empty_text_is_failure (w : world) (g : gmap string pyval)
    (st st1 : state Simple.SimplePDFProcessor) (z q url : string) (l : LLM) :
  Simple.llm (self st) = Some (Some l) ->
  Simple.get_zone_pdf_urls !! z = Some url ->
  Simple.extract_pdf_text w g url st = (Ok (Some EmptyString), st1) ->
  Simple.query_zone_with_ai w g z q st = (Ok None, st1) /\
  invocations (trace st1) = invocations (trace st).
Proof.
  intros Hl Hz Hx. split.
  - by rewrite (query_zone_with_ai_unfold w g st z q l url Hl Hz), Hx.
  - pose proof (extract_pdf_text_frame w g st url) as [_ Hinv].
    by rewrite Hx in Hinv.
Qed.

Lemma empty_text_is_failure_witness :
  Simple.llm (self simple_ready) = Some (Some demo_llm) /\
  Simple.get_zone_pdf_urls !! "H3" = Some h3_url /\
  Simple.extract_pdf_text world_empty_pdf (Simple.globals 2) h3_url simple_ready =
    (Ok (Some EmptyString),
     State (self simple_ready) ∅
       [HttpGet h3_url 30; TmpCreate 0; TmpWrite 0; PdfLoad 0; Unlink 0]) /\
  Simple.query_zone_with_ai world_empty_pdf (Simple.globals 2) "H3"
      demo_question simple_ready =
    (Ok None,
     State (self simple_ready) ∅
       [HttpGet h3_url 30; TmpCreate 0; TmpWrite 0; PdfLoad 0; Unlink 0]) /\
  invocations [HttpGet h3_url 30; TmpCreate 0; TmpWrite 0; PdfLoad 0; Unlink 0] =
    invocations (trace simple_ready).
Proof.
  split; [reflexivity|]. split; [vm_compute; reflexivity|]. split; [vm_compute; reflexivity|].
  apply (empty_text_is_failure world_empty_pdf (Simple.globals 2) simple_ready
           (State (self simple_ready) ∅
              [HttpGet h3_url 30; TmpCreate 0; TmpWrite 0; PdfLoad 0; Unlink 0])
           "H3" demo_question h3_url demo_llm).
  - reflexivity.
  - vm_compute; reflexivity.
  - vm_compute; reflexivity.
Defined.

(** C10. The two registries differ: for H7, H8 and H9 both have a URL and
    the URLs are not the same; D18 and H19 are keys of the registry of
    [SimplePDFProcessor] and not of the registry of
    [AucklandCouncilPDFProcessor]; the two maps are not equal. *)
Theorem registries_differ :
  Forall (fun z => exists u1 u2,
            Simple.get_zone_pdf_urls !! z = Some u1 /\
            Rag.get_zone_pdf_urls !! z = Some u2 /\ u1 ≠ u2) ["H7"; "H8"; "H9"] /\
  Forall (fun z => is_Some (Simple.get_zone_pdf_urls !! z) /\
                   Rag.get_zone_pdf_urls !! z = None) ["D18"; "H19"] /\
  Simple.get_zone_pdf_urls ≠ Rag.get_zone_pdf_urls.
Proof.
  split; [|split].
  - repeat constructor;
      (eexists; eexists; split; [vm_compute; reflexivity|];
       split; [vm_compute; reflexivity|]; discriminate).
  - repeat constructor; try (eexists; vm_compute; reflexivity); vm_compute; reflexivity.
  - intros Heq. apply (f_equal (fun m => m !! "D18")) in Heq.
    vm_compute in Heq. discriminate Heq.
Qed.

(** * Further properties *)

(** ** The namespace of simple-pdf-processor.py *)

Lemma simple_globals_flag done :
  Simple.globals done !! "LANGCHAIN_AVAILABLE" = Some (PyBool (bool_decide (2 ≤ done)%nat)).
Proof. unfold Simple.globals, import_block. by rewrite lookup_insert_eq. Qed.

Lemma simple_globals_bound done name :
  name ∈ ["PyPDFLoader"; "OpenAI"] ->
  (2 ≤ done)%nat ->
  Simple.globals done !! name = Some (PyClass name).
Proof.
  intros Hin Hdone. destruct done as [|[|n]]; [lia|lia|].
  unfold Simple.globals, import_block. simpl. rewrite take_nil. simpl.
  rewrite !elem_of_cons, elem_of_nil in Hin.
  destruct Hin as [->|[->|[]]].
  - rewrite lookup_insert_ne by done. vm_compute. reflexivity.
  - rewrite lookup_insert_ne by done. vm_compute. reflexivity.
Qed.

Section SimpleMore.
Variable w : world.
Variable g : gmap string pyval.

(** The constructor for a namespace that binds [OpenAI] whenever the flag
    is true. *)
Lemma simple_init_outcome st key (b : bool) :
  g !! "LANGCHAIN_AVAILABLE" = Some (PyBool b) ->
  (b = true -> is_Some (g !! "OpenAI")) ->
  Simple.__init__ w g key st =
    if b && opt_str_truthy key then
      let k := default EmptyString key in
      match openai_new w k with
      | None =>
          (Ok tt,
           State {| Simple.available := Some (PyBool b);
                    Simple.llm := Some (Some {| api_key := k; temperature := 0 |}) |}
             (files st) (trace st ++ [OpenAINew k]))
      | Some e =>
          (Ok tt,
           State {| Simple.available := Some (PyBool b); Simple.llm := Some None |}
             (files st)
             (trace st ++ [OpenAINew k; Print ("Error initializing OpenAI: " +:+ exn_str e)]))
      end
    else
      (Ok tt,
       State {| Simple.available := Some (PyBool b); Simple.llm := Some None |}
         (files st) (trace st)).
Proof.
  intros Hflag Hopenai. destruct st as [slf fs tr].
  unfold Simple.__init__, Simple.set_available, Simple.set_llm, Simple.get_available.
  unfold_monad. rewrite Hflag. simpl.
  destruct b; simpl; [|done].
  destruct (opt_str_truthy key); simpl; [|done].
  destruct (Hopenai eq_refl) as [c ->].
  destruct (openai_new w (default EmptyString key)); simpl; [|done].
  by rewrite <- app_assoc.
Qed.

(** After the constructor both attributes are assigned. *)
Lemma simple_constructor_init_attrs key st (b : bool) :
  g !! "LANGCHAIN_AVAILABLE" = Some (PyBool b) ->
  (b = true -> is_Some (g !! "OpenAI")) ->
  let st' := (Simple.__init__ w g key st).2 in
  is_Some (Simple.available (self st')) /\ is_Some (Simple.llm (self st')).
Proof.
  intros Hflag Hopenai. rewrite (simple_init_outcome st key b Hflag Hopenai).
  destruct (b && opt_str_truthy key); simpl; [|by eauto].
  destruct (openai_new w _); simpl; by eauto.
Qed.

Lemma extract_pdf_text_total st url v :
  Simple.available (self st) = Some v ->
  exists o st1, Simple.extract_pdf_text w g url st = (Ok o, st1).
Proof.
  intros Hv. destruct st as [slf fs tr]; simpl in *.
  unfold Simple.extract_pdf_text, Simple.get_available. msimpl. rewrite Hv. msimpl.
  destruct (truthy v); msimpl; [|by eauto].
  destruct (http_get w url) as [e|r]; msimpl; [by eauto|].
  destruct (status_error r); msimpl; [by eauto|].
  destruct (g !! "PyPDFLoader"); msimpl; [|by eauto].
  rewrite !lookup_insert_eq.
  destruct (pdf_load w (content r)); msimpl; [by eauto|].
  rewrite !lookup_insert_eq. msimpl. by eauto.
Qed.

(** What extraction does to the files: nothing, or one new file. *)
Lemma extract_pdf_text_files st url :
  let r := Simple.extract_pdf_text w g url st in
  files r.2 = files st \/
  (r.1 = Ok None /\
   exists body, files r.2 = <[fresh (dom (files st)) := body]> (files st)).
Proof.
  destruct st as [slf fs tr]; simpl.
  assert (Hfresh : fs !! fresh (dom fs) = None) by (apply not_elem_of_dom, is_fresh).
  unfold Simple.extract_pdf_text, Simple.get_available. msimpl.
  destruct (Simple.available slf) as [v|]; msimpl; [|by left].
  destruct (truthy v); msimpl; [|by left].
  destruct (http_get w url) as [e|r]; msimpl; [by left|].
  destruct (status_error r); msimpl; [by left|].
  destruct (g !! "PyPDFLoader"); msimpl.
  2:{ right. split; [done|]. eexists. by rewrite insert_insert_eq. }
  rewrite !lookup_insert_eq.
  destruct (pdf_load w (content r)); msimpl.
  { right. split; [done|]. eexists. by rewrite insert_insert_eq. }
  rewrite !lookup_insert_eq. msimpl. left.
  by rewrite insert_insert_eq, delete_insert_id.
Qed.

(** At most one request, and only to the URL given. *)
Lemma extract_pdf_text_fetches_any st url :
  exists us,
    fetches (trace (Simple.extract_pdf_text w g url st).2) = fetches (trace st) ++ us /\
    (us = [] \/ us = [url]).
Proof.
  destruct (Simple.available (self st)) as [v|] eqn:Hv.
  - destruct (truthy v) eqn:Ht.
    + exists [url]. split; [|by right]. by apply (extract_pdf_text_fetches w g st url v).
    + exists []. rewrite (extract_pdf_text_unavailable w g st url v Hv Ht).
      by rewrite app_nil_r; auto.
  - exists []. destruct st as [slf fs tr]; simpl in *.
    unfold Simple.extract_pdf_text, Simple.get_available. msimpl. rewrite Hv. msimpl.
    by rewrite app_nil_r; auto.
Qed.

(** A query on a constructed object never raises. *)
Lemma query_zone_with_ai_total st z q :
  is_Some (Simple.available (self st)) ->
  is_Some (Simple.llm (self st)) ->
  exists o st', Simple.query_zone_with_ai w g z q st = (Ok o, st').
Proof.
  intros [v Hv] [l Hl].
  destruct l as [l|].
  - destruct (Simple.get_zone_pdf_urls !! z) as [url|] eqn:Hz.
    + rewrite (query_zone_with_ai_unfold w g st z q l url Hl Hz).
      destruct (extract_pdf_text_total st url v Hv) as (o & st1 & ->).
      destruct o as [text|]; [|by eauto].
      destruct (str_truthy text); [|by eauto].
      simpl. destruct (llm_invoke w l _); by eauto.
    + rewrite (query_zone_with_ai_unknown_zone w g st z q (Some l) Hl Hz). by eauto.
  - destruct st as [slf fs tr]; simpl in *.
    unfold Simple.query_zone_with_ai, Simple.get_llm. msimpl. rewrite Hl. msimpl. by eauto.
Qed.
End SimpleMore.

Arguments Simple.query_zone_with_ai : simpl never.

Section SimpleMain.
Variable w : world.
Variable g : gmap string pyval.

(** [main] once the arguments and the credential have passed their guards
    and the imports worked: the constructor, then the query, then the
    response. *)
Lemma main_after_guards argv environ st k :
  (3 ≤ length argv)%nat ->
  environ !! "OPENAI_API_KEY" = Some k ->
  str_truthy k = true ->
  g !! "LANGCHAIN_AVAILABLE" = Some (PyBool true) ->
  is_Some (g !! "OpenAI") ->
  let zone_code := nth 1 argv EmptyString in
  let query := str_join " " (drop 2 argv) in
  let s0 := (Simple.__init__ w g (Some k) (State Simple.blank (files st) (trace st))).2 in
  Simple.main w g argv environ st =
    match Simple.query_zone_with_ai w g zone_code query s0 with
    | (Ok result, s1) =>
        (Ok tt, State (self s1) (files s1)
                  (trace s1 ++ [PrintJson (Simple.response zone_code query result)]))
    | (Raise e, s1) => (Raise e, s1)
    | (Exit n, s1) => (Exit n, s1)
    end.
Proof.
  intros Hlen Hk Hkt Hflag Hopenai zone_code query s0.
  unfold Simple.main. fold zone_code query.
  destruct (Nat.ltb_spec (length argv) 3) as [|_]; [lia|].
  rewrite Hk. simpl. rewrite Hkt. simpl.
  unfold bind at 1. unfold update_self at 1. unfold bind at 1.
  subst s0. destruct st as [slf fs tr]. simpl.
  rewrite (simple_init_outcome w g _ (Some k) true Hflag (fun _ => Hopenai)).
  simpl. rewrite Hkt.
  destruct (openai_new w k); simpl; unfold Simple.get_available; unfold_monad; simpl; done.
Qed.

Lemma simple_main_no_credential argv environ st :
  (3 ≤ length argv)%nat ->
  opt_str_truthy (environ !! "OPENAI_API_KEY") = false ->
  Simple.main w g argv environ st =
    (Exit 1,
     State (self st) (files st)
       (trace st ++ [PrintJson [("success", JBool false);
                                ("error", JStr "OPENAI_API_KEY environment variable not set")]])).
Proof.
  intros Hlen Hkey. destruct st as [slf fs tr].
  unfold Simple.main. apply Nat.ltb_ge in Hlen. rewrite Hlen, Hkey. by msimpl.
Qed.
End SimpleMain.

(** X1. The constructor of [SimplePDFProcessor] never raises: it assigns
    both attributes, touches no file and makes no request.  The model is set
    exactly when every import worked, the key is a non-empty string and the
    [OpenAI] constructor accepted it; in every other case [llm] is [None]. *)
Theorem simple_constructor_never_raises (w : world) (done : nat) (key : option string)
    (st : state Simple.SimplePDFProcessor) :
  exists st',
    Simple.__init__ w (Simple.globals done) key st = (Ok tt, st') /\
    Simple.available (self st') = Some (PyBool (bool_decide (2 ≤ done)%nat)) /\
    Simple.llm (self st') =
      Some (if bool_decide (2 ≤ done)%nat && opt_str_truthy key then
              match openai_new w (default EmptyString key) with
              | None => Some {| api_key := default EmptyString key; temperature := 0 |}
              | Some _ => None
              end
            else None) /\
    files st' = files st /\
    fetches (trace st') = fetches (trace st).
Proof.
  rewrite (simple_init_outcome w _ st key (bool_decide (2 ≤ done)%nat)
             (simple_globals_flag done)).
  2:{ intros Hd%bool_decide_eq_true. exists (PyClass "OpenAI").
      apply simple_globals_bound; [set_solver|done]. }
  destruct (bool_decide (2 ≤ done)%nat && opt_str_truthy key).
  - simpl. destruct (openai_new w (default EmptyString key)); eexists; (split; [done|]); simpl;
      repeat split; unfold fetches; rewrite omap_app; simpl; by rewrite app_nil_r.
  - eexists. split; [done|]. by repeat split.
Qed.

(** X2. [main] of the truncation script never ends in an exception.  It
    leaves through [sys.exit(1)] exactly when there are fewer than two
    arguments, the credential is unset or empty, or an import failed; in every
    other run it returns normally, whether the query succeeded or not. *)
Theorem simple_main_exit_status (w : world) (done : nat) (argv : list string)
    (environ : gmap string string) (st : state Simple.SimplePDFProcessor) :
  (Simple.main w (Simple.globals done) argv environ st).1 =
    if (length argv <? 3)%nat
       || negb (opt_str_truthy (environ !! "OPENAI_API_KEY"))
       || negb (bool_decide (2 ≤ done)%nat)
    then Exit 1 else Ok tt.
Proof.
  destruct (Nat.ltb_spec (length argv) 3) as [Hlt|Hge].
  { unfold Simple.main. apply Nat.ltb_lt in Hlt. rewrite Hlt. by msimpl. }
  destruct (opt_str_truthy (environ !! "OPENAI_API_KEY")) eqn:Hkey.
  2:{ unfold Simple.main. apply Nat.ltb_ge in Hge. rewrite Hge, Hkey. by msimpl. }
  destruct (environ !! "OPENAI_API_KEY") as [k|] eqn:Hk; [|done]. simpl in Hkey.
  destruct (bool_decide (2 ≤ done)%nat) eqn:Hdone; simpl.
  - apply bool_decide_eq_true in Hdone.
    assert (Hflag : Simple.globals done !! "LANGCHAIN_AVAILABLE" = Some (PyBool true)).
    { rewrite simple_globals_flag. by rewrite bool_decide_eq_true_2. }
    assert (Hopenai : is_Some (Simple.globals done !! "OpenAI")).
    { exists (PyClass "OpenAI"). apply simple_globals_bound; [set_solver|done]. }
    rewrite (main_after_guards w _ argv environ st k Hge Hk Hkey Hflag Hopenai).
    set (s0 := (Simple.__init__ w (Simple.globals done) (Some k) _).2).
    destruct (simple_constructor_init_attrs w (Simple.globals done) (Some k)
                (State Simple.blank (files st) (trace st)) true Hflag (fun _ => Hopenai))
      as [Hav Hllm].
    destruct (query_zone_with_ai_total w (Simple.globals done) s0
                (nth 1 argv EmptyString) (str_join " " (drop 2 argv)) Hav Hllm)
      as (o & s1 & ->).
    done.
  - unfold Simple.main. apply Nat.ltb_ge in Hge. rewrite Hge, Hk. simpl. rewrite Hkey. simpl.
    unfold bind at 1. unfold update_self at 1. unfold bind at 1. simpl.
    rewrite (simple_init_outcome w _ _ (Some k) false).
    + simpl. unfold Simple.get_available. by msimpl.
    + rewrite simple_globals_flag. by rewrite Hdone.
    + done.
Qed.

(** X3. With the credential unset or set to the empty string, [main] of
    the truncation script prints one JSON object, [success] false with the
    reason, and leaves with status 1: no processor is constructed and no
    library is called. *)
Theorem simple_main_missing_credential (w : world) (g : gmap string pyval)
    (argv : list string) (environ : gmap string string)
    (st : state Simple.SimplePDFProcessor) :
  (3 ≤ length argv)%nat ->
  opt_str_truthy (environ !! "OPENAI_API_KEY") = false ->
  Simple.main w g argv environ st =
    (Exit 1,
     State (self st) (files st)
       (trace st ++ [PrintJson [("success", JBool false);
                                ("error", JStr "OPENAI_API_KEY environment variable not set")]])).
Proof. apply simple_main_no_credential. Qed.

Lemma simple_main_missing_credential_witness :
  (3 ≤ length demo_argv)%nat /\
  opt_str_truthy (({[ "OPENAI_API_KEY" := EmptyString ]} : gmap string string)
                    !! "OPENAI_API_KEY") = false /\
  Simple.main demo_world (Simple.globals 2) demo_argv {[ "OPENAI_API_KEY" := EmptyString ]}
      (State Simple.blank ∅ []) =
    (Exit 1,
     State Simple.blank ∅
       ([] ++ [PrintJson [("success", JBool false);
                          ("error", JStr "OPENAI_API_KEY environment variable not set")]])).
Proof.
  split; [vm_compute; lia|]. split; [vm_compute; reflexivity|].
  apply (simple_main_missing_credential demo_world (Simple.globals 2) demo_argv
           {[ "OPENAI_API_KEY" := EmptyString ]} (State Simple.blank ∅ [])).
  - vm_compute; lia.
  - vm_compute; reflexivity.
Defined.



(** X5. [extract_pdf_text] never alters or removes a file that was on disk
    before the call, and it leaves at most one file behind, only when it
    returns [None]. *)
Theorem extraction_keeps_existing_files (w : world) (g : gmap string pyval)
    (st : state Simple.SimplePDFProcessor) (url : string) (p : nat) (data : bytes) :
  files st !! p = Some data ->
  let r := Simple.extract_pdf_text w g url st in
  files r.2 !! p = Some data /\
  (files r.2 = files st \/
   (r.1 = Ok None /\ exists body, files r.2 = <[fresh (dom (files st)) := body]> (files st))).
Proof.
  intros Hp r. subst r.
  pose proof (extract_pdf_text_files w g st url) as Hfiles. simpl in Hfiles.
  split; [|done].
  destruct Hfiles as [->|(_ & body & ->)]; [done|].
  rewrite lookup_insert_ne; [done|].
  intros Heq. pose proof (is_fresh (dom (files st))) as Hfresh.
  rewrite Heq in Hfresh. apply Hfresh, elem_of_dom. by eexists.
Qed.

Lemma extraction_keeps_existing_files_witness :
  files simple_with_file !! 0%nat = Some [Byte.x00] /\
  let r := Simple.extract_pdf_text world_bad_pdf (Simple.globals 2) h3_url simple_with_file in
  files r.2 !! 0%nat = Some [Byte.x00] /\
  (files r.2 = files simple_with_file \/
   (r.1 = Ok None /\
    exists body, files r.2 = <[fresh (dom (files simple_with_file)) := body]>
                               (files simple_with_file))).
Proof.
  split; [vm_compute; reflexivity|].
  apply (extraction_keeps_existing_files world_bad_pdf (Simple.globals 2) simple_with_file
           h3_url 0%nat [Byte.x00]).
  vm_compute; reflexivity.
Defined.

(** X6. When the request and the decoder succeed, [extract_pdf_text]
    returns the page texts in page order, joined by single newlines; the
    staged file is created, written, decoded and removed, so the files on
    disk are those before the call. *)
Theorem extraction_joins_pages (w : world) (g : gmap string pyval)
    (st : state Simple.SimplePDFProcessor) (url : string) (v c : pyval) (r : Response)
    (documents : list Document) :
  Simple.available (self st) = Some v ->
  truthy v = true ->
  http_get w url = inr r ->
  status_error r = None ->
  g !! "PyPDFLoader" = Some c ->
  pdf_load w (content r) = inr documents ->
  let p := fresh (dom (files st)) in
  Simple.extract_pdf_text w g url st =
    (Ok (Some (str_join newline (map page_content documents))),
     State (self st) (files st)
       (trace st ++ [HttpGet url 30; TmpCreate p; TmpWrite p; PdfLoad p; Unlink p])).
Proof. apply extract_pdf_text_success. Qed.

Lemma extraction_joins_pages_witness :
  Simple.available (self simple_ready) = Some (PyBool true) /\
  truthy (PyBool true) = true /\
  http_get world_two_pages h3_url = inr {| content := pdf_magic; status_error := None |} /\
  status_error {| content := pdf_magic; status_error := None |} = None /\
  Simple.globals 2 !! "PyPDFLoader" = Some (PyClass "PyPDFLoader") /\
  pdf_load world_two_pages pdf_magic =
    inr [ {| page_content := "H3.6.6 Building height" |};
          {| page_content := "Maximum height: 8 metres" |} ] /\
  Simple.extract_pdf_text world_two_pages (Simple.globals 2) h3_url simple_ready =
    (Ok (Some (str_join newline
                 (map page_content [ {| page_content := "H3.6.6 Building height" |};
                                     {| page_content := "Maximum height: 8 metres" |} ]))),
     State (self simple_ready) (files simple_ready)
       (trace simple_ready ++
        [HttpGet h3_url 30; TmpCreate (fresh (dom (files simple_ready)));
         TmpWrite (fresh (dom (files simple_ready))); PdfLoad (fresh (dom (files simple_ready)));
         Unlink (fresh (dom (files simple_ready)))])).
Proof.
  split; [reflexivity|]. split; [reflexivity|]. split; [reflexivity|]. split; [reflexivity|].
  split; [vm_compute; reflexivity|]. split; [reflexivity|].
  apply (extraction_joins_pages world_two_pages (Simple.globals 2) simple_ready h3_url
           (PyBool true) (PyClass "PyPDFLoader") {| content := pdf_magic; status_error := None |}).
  - reflexivity.
  - reflexivity.
  - reflexivity.
  - reflexivity.
  - vm_compute; reflexivity.
  - reflexivity.
Defined.

(** X7. A query is single-shot in every state and whatever the libraries
    do: [query_zone_with_ai] makes at most one request and at most one call to
    the completion service; nothing is retried. *)
Theorem query_is_single_shot (w : world) (g : gmap string pyval)
    (st : state Simple.SimplePDFProcessor) (z q : string) :
  let st' := (Simple.query_zone_with_ai w g z q st).2 in
  exists (urls prompts : list string),
    fetches (trace st') = fetches (trace st) ++ urls /\
    invocations (trace st') = invocations (trace st) ++ prompts /\
    (length urls ≤ 1)%nat /\ (length prompts ≤ 1)%nat.
Proof.
  assert (Hsame : forall r, (Simple.query_zone_with_ai w g z q st) = (r, st) ->
    exists urls prompts : list string,
      fetches (trace (Simple.query_zone_with_ai w g z q st).2) = fetches (trace st) ++ urls /\
      invocations (trace (Simple.query_zone_with_ai w g z q st).2) =
        invocations (trace st) ++ prompts /\
      (length urls ≤ 1)%nat /\ (length prompts ≤ 1)%nat).
  { intros r ->. exists [], []. simpl. rewrite !app_nil_r. repeat split; lia. }
  simpl.
  destruct (Simple.llm (self st)) as [[l|]|] eqn:Hl.
  - destruct (Simple.get_zone_pdf_urls !! z) as [url|] eqn:Hz.
    + rewrite (query_zone_with_ai_unfold w g st z q l url Hl Hz).
      destruct (extract_pdf_text_fetches_any w g st url) as (us & Hus & Hlen).
      pose proof (extract_pdf_text_frame w g st url) as [_ Hinv].
      destruct (Simple.extract_pdf_text w g url st) as [[[text|]|e|n] st1]; simpl in *.
      * destruct (str_truthy text); simpl.
        -- exists us, [Simple.build_prompt z q (str_prefix 8000 text)].
           unfold fetches, invocations in *.
           destruct (llm_invoke w l _); simpl; rewrite !omap_app, Hus, Hinv; simpl;
             rewrite ?app_nil_r; (split; [done|split; [done|]]);
             (split; [destruct Hlen as [->| ->]; simpl; lia|simpl; lia]).
        -- exists us, []. rewrite app_nil_r.
           repeat split; try done; destruct Hlen as [->| ->]; simpl; lia.
      * exists us, []. rewrite app_nil_r.
        repeat split; try done; destruct Hlen as [->| ->]; simpl; lia.
      * exists us, []. rewrite app_nil_r.
        repeat split; try done; destruct Hlen as [->| ->]; simpl; lia.
      * exists us, []. rewrite app_nil_r.
        repeat split; try done; destruct Hlen as [->| ->]; simpl; lia.
    + apply (Hsame (Ok None)). by apply (query_zone_with_ai_unknown_zone w g st z q (Some l)).
  - apply (Hsame (Ok None)). destruct st as [slf fs tr]; simpl in *.
    unfold Simple.query_zone_with_ai, Simple.get_llm. msimpl. by rewrite Hl.
  - apply (Hsame (Raise (AttributeError Simple.cls "llm"))). destruct st as [slf fs tr]; simpl in *.
    unfold Simple.query_zone_with_ai, Simple.get_llm. msimpl. by rewrite Hl.
Qed.

(** X8. An answer is always grounded: when [query_zone_with_ai] returns a
    text, the zone is in the registry, its document was extracted to a
    non-empty text, and the answer is what the completion service returned for
    the prompt built from the zone, the question and the first 8000 characters
    of that text. *)
Theorem answer_is_grounded (w : world) (g : gmap string pyval)
    (st st' : state Simple.SimplePDFProcessor) (z q answer : string) :
  Simple.query_zone_with_ai w g z q st = (Ok (Some answer), st') ->
  exists (l : LLM) (url text : string) (st1 : state Simple.SimplePDFProcessor),
    Simple.llm (self st) = Some (Some l) /\
    Simple.get_zone_pdf_urls !! z = Some url /\
    Simple.extract_pdf_text w g url st = (Ok (Some text), st1) /\
    str_truthy text = true /\
    llm_invoke w l (Simple.build_prompt z q (str_prefix 8000 text)) = inr answer.
Proof.
  intros Hq.
  destruct (Simple.llm (self st)) as [[l|]|] eqn:Hl.
  - destruct (Simple.get_zone_pdf_urls !! z) as [url|] eqn:Hz.
    + rewrite (query_zone_with_ai_unfold w g st z q l url Hl Hz) in Hq.
      destruct (Simple.extract_pdf_text w g url st) as [[[text|]|e|n] st1] eqn:Hx; try done.
      destruct (str_truthy text) eqn:Ht; [|done].
      simpl in Hq.
      destruct (llm_invoke w l _) as [e|a] eqn:Hinv; [done|].
      injection Hq as -> _. by exists l, url, text, st1.
    + by rewrite (query_zone_with_ai_unknown_zone w g st z q (Some l) Hl Hz) in Hq.
  - destruct st as [slf fs tr]; simpl in *.
    unfold Simple.query_zone_with_ai, Simple.get_llm in Hq. msimpl. by rewrite Hl in Hq.
  - destruct st as [slf fs tr]; simpl in *.
    unfold Simple.query_zone_with_ai, Simple.get_llm in Hq. msimpl. by rewrite Hl in Hq.
Qed.

Lemma answer_is_grounded_witness :
  exists st',
    Simple.query_zone_with_ai demo_world (Simple.globals 2) "H3" demo_question simple_ready =
      (Ok (Some "8 metres"), st') /\
    exists (l : LLM) (url text : string) (st1 : state Simple.SimplePDFProcessor),
      Simple.llm (self simple_ready) = Some (Some l) /\
      Simple.get_zone_pdf_urls !! "H3" = Some url /\
      Simple.extract_pdf_text demo_world (Simple.globals 2) url simple_ready =
        (Ok (Some text), st1) /\
      str_truthy text = true /\
      llm_invoke demo_world l (Simple.build_prompt "H3" demo_question (str_prefix 8000 text)) =
        inr "8 metres".
Proof.
  eexists. split; [vm_compute; reflexivity|].
  eapply (answer_is_grounded demo_world (Simple.globals 2) simple_ready _ "H3" demo_question
            "8 metres").
  vm_compute; reflexivity.
Defined.

(** ** Slices and joins *)

Lemma str_truthy_app_cons a c s : str_truthy (a +:+ String c s) = true.
Proof. by destruct a. Qed.

(** Two pages or more: the joined text has a newline in it. *)
Lemma str_join_two_truthy (parts : list string) :
  (2 ≤ length parts)%nat -> str_truthy (str_join newline parts) = true.
Proof.
  destruct parts as [|a [|b rest]]; simpl; [lia|lia|]. intros _.
  unfold str_join. simpl. apply str_truthy_app_cons.
Qed.

(** X9. The evidence in the prompt is an initial segment of the extracted
    text, of length min(8000, len(text)): the text is the evidence followed
    by what was cut off. *)
Theorem evidence_is_initial_segment (w : world) (g : gmap string pyval)
    (st st1 : state Simple.SimplePDFProcessor) (z q url text : string) (l : LLM) :
  Simple.llm (self st) = Some (Some l) ->
  Simple.get_zone_pdf_urls !! z = Some url ->
  Simple.extract_pdf_text w g url st = (Ok (Some text), st1) ->
  str_truthy text = true ->
  exists evidence rest : string,
    invocations (trace (Simple.query_zone_with_ai w g z q st).2) =
      invocations (trace st) ++ [Simple.build_prompt z q evidence] /\
    text = evidence +:+ rest /\
    str_len evidence = Nat.min 8000 (str_len text).
Proof.
  intros Hl Hz Hx Ht.
  destruct (str_prefix_is_prefix 8000 text) as [rest Hrest].
  exists (str_prefix 8000 text), rest.
  split; [|split; [done|apply str_prefix_length_min]].
  rewrite (query_zone_with_ai_unfold w g st z q l url Hl Hz), Hx, Ht.
  pose proof (extract_pdf_text_frame w g st url) as [_ Hinv].
  rewrite Hx in Hinv. simpl in Hinv.
  unfold invocations in *.
  destruct (llm_invoke w l _); simpl; rewrite !omap_app, Hinv; simpl; by rewrite ?app_nil_r.
Qed.

Lemma evidence_is_initial_segment_witness :
  Simple.llm (self simple_ready) = Some (Some demo_llm) /\
  Simple.get_zone_pdf_urls !! "H3" = Some h3_url /\
  str_truthy long_text = true /\
  exists evidence rest : string,
    invocations (trace (Simple.query_zone_with_ai world_long_document (Simple.globals 2) "H3"
                          demo_question simple_ready).2) =
      invocations (trace simple_ready) ++ [Simple.build_prompt "H3" demo_question evidence] /\
    long_text = evidence +:+ rest /\
    str_len evidence = Nat.min 8000 (str_len long_text).
Proof.
  split; [reflexivity|]. split; [vm_compute; reflexivity|].
  split; [vm_compute; reflexivity|].
  apply (evidence_is_initial_segment world_long_document (Simple.globals 2) simple_ready
           (State (self simple_ready) ∅
              [HttpGet h3_url 30; TmpCreate 0; TmpWrite 0; PdfLoad 0; Unlink 0])
           "H3" demo_question h3_url long_text demo_llm).
  - reflexivity.
  - vm_compute; reflexivity.
  - exact long_document_extraction.
  - vm_compute; reflexivity.
Defined.

(** X10. A document of two pages or more is never taken for an empty one:
    the joined text has at least the newline between the pages, so the query
    goes on to the completion service even when no page has any text. *)
Theorem multi_page_document_reaches_synthesis (w : world) (g : gmap string pyval)
    (st : state Simple.SimplePDFProcessor) (z q url : string) (v c : pyval) (l : LLM)
    (r : Response) (documents : list Document) :
  Simple.available (self st) = Some v ->
  truthy v = true ->
  Simple.llm (self st) = Some (Some l) ->
  Simple.get_zone_pdf_urls !! z = Some url ->
  http_get w url = inr r ->
  status_error r = None ->
  g !! "PyPDFLoader" = Some c ->
  pdf_load w (content r) = inr documents ->
  (2 ≤ length documents)%nat ->
  invocations (trace (Simple.query_zone_with_ai w g z q st).2) =
    invocations (trace st) ++
      [Simple.build_prompt z q
         (str_prefix 8000 (str_join newline (map page_content documents)))].
Proof.
  intros Hv Ht Hl Hz Hr Hs Hc Hd Hlen.
  rewrite (query_zone_with_ai_unfold w g st z q l url Hl Hz).
  rewrite (extract_pdf_text_success w g st url v r c documents Hv Ht Hr Hs Hc Hd).
  rewrite str_join_two_truthy by (by rewrite length_map).
  unfold invocations.
  destruct (llm_invoke w l _); simpl; rewrite !omap_app; simpl; by rewrite ?app_nil_r.
Qed.

Lemma multi_page_document_reaches_synthesis_witness :
  Simple.available (self simple_ready) = Some (PyBool true) /\
  truthy (PyBool true) = true /\
  Simple.llm (self simple_ready) = Some (Some demo_llm) /\
  Simple.get_zone_pdf_urls !! "H3" = Some h3_url /\
  http_get world_blank_pages h3_url = inr {| content := pdf_magic; status_error := None |} /\
  Simple.globals 2 !! "PyPDFLoader" = Some (PyClass "PyPDFLoader") /\
  pdf_load world_blank_pages pdf_magic =
    inr [ {| page_content := EmptyString |}; {| page_content := EmptyString |} ] /\
  invocations (trace (Simple.query_zone_with_ai world_blank_pages (Simple.globals 2) "H3"
                        demo_question simple_ready).2) =
    invocations (trace simple_ready) ++
      [Simple.build_prompt "H3" demo_question
         (str_prefix 8000
            (str_join newline
               (map page_content
                  [ {| page_content := EmptyString |}; {| page_content := EmptyString |} ])))].
Proof.
  split; [reflexivity|]. split; [reflexivity|]. split; [reflexivity|].
  split; [vm_compute; reflexivity|]. split; [reflexivity|].
  split; [vm_compute; reflexivity|]. split; [reflexivity|].
  apply (multi_page_document_reaches_synthesis world_blank_pages (Simple.globals 2) simple_ready
           "H3" demo_question h3_url (PyBool true) (PyClass "PyPDFLoader") demo_llm
           {| content := pdf_magic; status_error := None |}).
  - reflexivity.
  - reflexivity.
  - reflexivity.
  - vm_compute; reflexivity.
  - reflexivity.
  - reflexivity.
  - vm_compute; reflexivity.
  - reflexivity.
  - simpl. lia.
Defined.

(** X11. A failing completion service does not fail the call: the handler
    prints the error after the single attempt and [query_zone_with_ai]
    returns [None], in the state the extraction left. *)
Theorem completion_failure_returns_none (w : world) (g : gmap string pyval)
    (st st1 : state Simple.SimplePDFProcessor) (z q url text : string) (l : LLM) (e : exn) :
  Simple.llm (self st) = Some (Some l) ->
  Simple.get_zone_pdf_urls !! z = Some url ->
  Simple.extract_pdf_text w g url st = (Ok (Some text), st1) ->
  str_truthy text = true ->
  llm_invoke w l (Simple.build_prompt z q (str_prefix 8000 text)) = inl e ->
  Simple.query_zone_with_ai w g z q st =
    (Ok None,
     State (self st1) (files st1)
       (trace st1 ++ [LLMInvoke (Simple.build_prompt z q (str_prefix 8000 text));
                      Print ("Error querying AI: " +:+ exn_str e)])).
Proof.
  intros Hl Hz Hx Ht He.
  rewrite (query_zone_with_ai_unfold w g st z q l url Hl Hz), Hx, Ht.
  cbv zeta. by rewrite He.
Qed.

Lemma completion_failure_returns_none_witness :
  Simple.llm (self simple_ready) = Some (Some demo_llm) /\
  Simple.get_zone_pdf_urls !! "H3" = Some h3_url /\
  str_truthy "Maximum height: 8 metres" = true /\
  exists st1,
    Simple.extract_pdf_text world_llm_down (Simple.globals 2) h3_url simple_ready =
      (Ok (Some "Maximum height: 8 metres"), st1) /\
    Simple.query_zone_with_ai world_llm_down (Simple.globals 2) "H3" demo_question simple_ready =
      (Ok None,
       State (self st1) (files st1)
         (trace st1 ++
          [LLMInvoke (Simple.build_prompt "H3" demo_question
                        (str_prefix 8000 "Maximum height: 8 metres"));
           Print ("Error querying AI: " +:+ exn_str (LibraryError "Connection error."))])).
Proof.
  split; [reflexivity|]. split; [vm_compute; reflexivity|]. split; [reflexivity|].
  eexists. split; [vm_compute; reflexivity|].
  eapply (completion_failure_returns_none world_llm_down (Simple.globals 2) simple_ready _
            "H3" demo_question h3_url "Maximum height: 8 metres" demo_llm
            (LibraryError "Connection error.")).
  - reflexivity.
  - vm_compute; reflexivity.
  - vm_compute; reflexivity.
  - reflexivity.
  - reflexivity.
Defined.

(** X12. When the [OpenAI] constructor raises, the script still runs to its
    end: the constructor prints the error and leaves no model, the query
    returns [None] without any request, and [main] prints the failure
    response and returns normally. *)
Theorem rejected_key_reports_failure (w : world) (done : nat) (argv : list string)
    (environ : gmap string string) (st : state Simple.SimplePDFProcessor) (k : string) (e : exn) :
  (3 ≤ length argv)%nat ->
  environ !! "OPENAI_API_KEY" = Some k ->
  str_truthy k = true ->
  (2 ≤ done)%nat ->
  openai_new w k = Some e ->
  Simple.main w (Simple.globals done) argv environ st =
    (Ok tt,
     State {| Simple.available := Some (PyBool true); Simple.llm := Some None |} (files st)
       (trace st ++
        [OpenAINew k;
         Print ("Error initializing OpenAI: " +:+ exn_str e);
         PrintJson (Simple.response (nth 1 argv EmptyString) (str_join " " (drop 2 argv)) None)])).
Proof.
  intros Hlen Hk Hkt Hdone He.
  assert (Hflag : Simple.globals done !! "LANGCHAIN_AVAILABLE" = Some (PyBool true)).
  { rewrite simple_globals_flag. by rewrite bool_decide_eq_true_2. }
  assert (Hopenai : is_Some (Simple.globals done !! "OpenAI")).
  { exists (PyClass "OpenAI"). apply simple_globals_bound; [set_solver|done]. }
  rewrite (main_after_guards w _ argv environ st k Hlen Hk Hkt Hflag Hopenai).
  rewrite (simple_init_outcome w _ _ (Some k) true Hflag (fun _ => Hopenai)).
  simpl. rewrite Hkt, He. simpl.
  unfold Simple.query_zone_with_ai, Simple.get_llm. msimpl.
  by rewrite <- app_assoc.
Qed.

Lemma rejected_key_reports_failure_witness :
  (3 ≤ length demo_argv)%nat /\
  demo_environ !! "OPENAI_API_KEY" = Some "sk-test" /\
  str_truthy "sk-test" = true /\
  (2 ≤ 2)%nat /\
  openai_new world_bad_key "sk-test" = Some (LibraryError "Invalid API key") /\
  Simple.main world_bad_key (Simple.globals 2) demo_argv demo_environ (State Simple.blank ∅ []) =
    (Ok tt,
     State {| Simple.available := Some (PyBool true); Simple.llm := Some None |} ∅
       ([] ++
        [OpenAINew "sk-test";
         Print ("Error initializing OpenAI: " +:+ exn_str (LibraryError "Invalid API key"));
         PrintJson (Simple.response (nth 1 demo_argv EmptyString)
                      (str_join " " (drop 2 demo_argv)) None)])).
Proof.
  split; [vm_compute; lia|]. split; [vm_compute; reflexivity|]. split; [reflexivity|].
  split; [lia|]. split; [reflexivity|].
  apply (rejected_key_reports_failure world_bad_key 2 demo_argv demo_environ
           (State Simple.blank ∅ []) "sk-test" (LibraryError "Invalid API key")).
  - vm_compute; lia.
  - vm_compute; reflexivity.
  - reflexivity.
  - lia.
  - reflexivity.
Defined.

(** X13. The whole successful run of the truncation script: with two
    arguments or more, a credential, all imports, a registered zone, a
    document that is fetched and decoded to a non-empty text and a completion
    service that answers, [main] returns normally after exactly these steps:
    construct the model, fetch, stage, decode, unlink, call the completion
    service once, print the success response with the answer. *)
Theorem successful_run (w : world) (done : nat) (argv : list string)
    (environ : gmap string string) (st : state Simple.SimplePDFProcessor)
    (k url answer : string) (r : Response) (documents : list Document) :
  let zone_code := nth 1 argv EmptyString in
  let query := str_join " " (drop 2 argv) in
  let text := str_join newline (map page_content documents) in
  let prompt := Simple.build_prompt zone_code query (str_prefix 8000 text) in
  let p := fresh (dom (files st)) in
  (3 ≤ length argv)%nat ->
  environ !! "OPENAI_API_KEY" = Some k ->
  str_truthy k = true ->
  (2 ≤ done)%nat ->
  openai_new w k = None ->
  Simple.get_zone_pdf_urls !! zone_code = Some url ->
  http_get w url = inr r ->
  status_error r = None ->
  pdf_load w (content r) = inr documents ->
  str_truthy text = true ->
  llm_invoke w {| api_key := k; temperature := 0 |} prompt = inr answer ->
  Simple.main w (Simple.globals done) argv environ st =
    (Ok tt,
     State {| Simple.available := Some (PyBool true);
              Simple.llm := Some (Some {| api_key := k; temperature := 0 |}) |} (files st)
       (trace st ++
        [OpenAINew k; HttpGet url 30; TmpCreate p; TmpWrite p; PdfLoad p; Unlink p;
         LLMInvoke prompt; PrintJson (Simple.response zone_code query (Some answer))])).
Proof.
  intros zone_code query text prompt p Hlen Hk Hkt Hdone Hnew Hz Hr Hs Hd Ht Hinv.
  assert (Hflag : Simple.globals done !! "LANGCHAIN_AVAILABLE" = Some (PyBool true)).
  { rewrite simple_globals_flag. by rewrite bool_decide_eq_true_2. }
  assert (Hopenai : is_Some (Simple.globals done !! "OpenAI")).
  { exists (PyClass "OpenAI"). apply simple_globals_bound; [set_solver|done]. }
  assert (Hloader : Simple.globals done !! "PyPDFLoader" = Some (PyClass "PyPDFLoader")).
  { apply simple_globals_bound; [set_solver|done]. }
  rewrite (main_after_guards w _ argv environ st k Hlen Hk Hkt Hflag Hopenai).
  rewrite (simple_init_outcome w _ _ (Some k) true Hflag (fun _ => Hopenai)).
  simpl. rewrite Hkt, Hnew. simpl. fold zone_code query.
  set (s0 := State {| Simple.available := Some (PyBool true);
                      Simple.llm := Some (Some {| api_key := k; temperature := 0 |}) |}
               (files st) (trace st ++ [OpenAINew k])).
  rewrite (query_zone_with_ai_unfold w _ s0 zone_code query {| api_key := k; temperature := 0 |}
             url eq_refl Hz).
  rewrite (extract_pdf_text_success w _ s0 url (PyBool true) r _ documents
             eq_refl eq_refl Hr Hs Hloader Hd).
  fold text. rewrite Ht. cbv zeta. fold prompt. rewrite Hinv. subst s0. simpl. fold p.
  by rewrite <- !app_assoc.
Qed.

Lemma successful_run_witness :
  (3 ≤ length demo_argv)%nat /\
  demo_environ !! "OPENAI_API_KEY" = Some "sk-test" /\
  (2 ≤ 2)%nat /\
  openai_new demo_world "sk-test" = None /\
  Simple.get_zone_pdf_urls !! nth 1 demo_argv EmptyString = Some h3_url /\
  Simple.main demo_world (Simple.globals 2) demo_argv demo_environ (State Simple.blank ∅ []) =
    (Ok tt,
     State {| Simple.available := Some (PyBool true);
              Simple.llm := Some (Some {| api_key := "sk-test"; temperature := 0 |}) |} ∅
       ([] ++
        [OpenAINew "sk-test"; HttpGet h3_url 30;
         TmpCreate (fresh (dom (∅ : gmap nat bytes)));
         TmpWrite (fresh (dom (∅ : gmap nat bytes)));
         PdfLoad (fresh (dom (∅ : gmap nat bytes)));
         Unlink (fresh (dom (∅ : gmap nat bytes)));
         LLMInvoke (Simple.build_prompt (nth 1 demo_argv EmptyString)
                      (str_join " " (drop 2 demo_argv))
                      (str_prefix 8000
                         (str_join newline
                            (map page_content
                               [ {| page_content := "Maximum height: 8 metres" |} ]))));
         PrintJson (Simple.response (nth 1 demo_argv EmptyString)
                      (str_join " " (drop 2 demo_argv)) (Some "8 metres"))])).
Proof.
  split; [vm_compute; lia|]. split; [vm_compute; reflexivity|]. split; [lia|].
  split; [reflexivity|]. split; [vm_compute; reflexivity|].
  apply (successful_run demo_world 2 demo_argv demo_environ (State Simple.blank ∅ [])
           "sk-test" h3_url "8 metres" {| content := pdf_magic; status_error := None |}
           [ {| page_content := "Maximum height: 8 metres" |} ]).
  - vm_compute; lia.
  - vm_compute; reflexivity.
  - reflexivity.
  - lia.
  - reflexivity.
  - vm_compute; reflexivity.
  - reflexivity.
  - reflexivity.
  - reflexivity.
  - reflexivity.
  - reflexivity.
Defined.

(** ** More on the retrieval processor *)

Section RagMore.
Variable w : world.
Variable g : gmap string pyval.

(** Loading never changes the object and never leaves through [sys.exit];
    with [available] assigned it returns a list. *)
Lemma load_pdf_from_url_frame st url :
  exists r st1,
    Rag.load_pdf_from_url w g url st = (r, st1) /\
    self st1 = self st /\
    (is_Some (Rag.available (self st)) -> exists documents, r = Ok documents).
Proof.
  destruct st as [slf fs tr]; simpl.
  unfold Rag.load_pdf_from_url, Rag.getattr. msimpl.
  destruct (Rag.available slf) as [v|]; msimpl.
  2:{ eexists _, _. split; [done|]. split; [done|]. by intros [? ?]. }
  destruct (truthy v); msimpl; [|by eauto 10].
  destruct (http_get w url) as [e|r]; msimpl; [by eauto 10|].
  destruct (status_error r); msimpl; [by eauto 10|].
  destruct (g !! "PyPDFLoader"); msimpl; [|by eauto 10].
  rewrite !lookup_insert_eq.
  destruct (pdf_load w (content r)) as [e|documents]; msimpl; [by eauto 10|].
  rewrite !lookup_insert_eq. msimpl.
  destruct (Rag.text_splitter slf) as [splitter|]; msimpl; [|by eauto 10].
  destruct (split_documents w splitter documents); msimpl; by eauto 10.
Qed.

(** With [FAISS] unbound, [create_vector_store] stores nothing: the object
    is unchanged, and [True] comes back only for a zone already indexed. *)
Lemma create_vector_store_frame st z :
  g !! "FAISS" = None ->
  exists r st1,
    Rag.create_vector_store w g z st = (r, st1) /\
    self st1 = self st /\
    (forall n, r ≠ Exit n) /\
    (r = Ok true ->
     exists stores vs, Rag.vector_stores (self st) = Some stores /\ stores !! z = Some vs).
Proof.
  intros Hfaiss. destruct st as [slf fs tr]; simpl.
  unfold Rag.create_vector_store, Rag.getattr. msimpl.
  destruct (Rag.available slf) as [v|] eqn:Hv; msimpl.
  2:{ eexists _, _. (split; [done|]). (split; [done|]). (split; [done|]). done. }
  destruct (truthy v); msimpl.
  2:{ eexists _, _. (split; [done|]). (split; [done|]). (split; [done|]). done. }
  destruct (Rag.vector_stores slf) as [stores|]; msimpl.
  2:{ eexists _, _. (split; [done|]). (split; [done|]). (split; [done|]). done. }
  destruct (stores !! z) as [vs|] eqn:Hz.
  { eexists _, _. (split; [done|]). (split; [done|]). (split; [done|]). by eauto. }
  destruct (Rag.get_zone_pdf_urls !! z) as [url|].
  2:{ eexists _, _. (split; [done|]). (split; [done|]). (split; [done|]). done. }
  msimpl.
  match goal with
  | |- context [Rag.load_pdf_from_url w g url ?s] =>
      destruct (load_pdf_from_url_frame s url) as (r & s1 & Hload & Hself & Hok);
      rewrite Hload
  end.
  simpl in Hself.
  assert (Hav : is_Some (Rag.available slf)) by (rewrite Hv; eauto).
  destruct (Hok Hav) as [documents ->].
  destruct documents as [|d documents]; simpl.
  { eexists _, _. (split; [done|]). (split; [done|]). (split; [done|]). done. }
  rewrite Hfaiss. simpl.
  eexists _, _. (split; [done|]). (split; [done|]). (split; [done|]). done.
Qed.

(** With [FAISS] and [RetrievalQA] unbound the query gives [None] or an
    exception, and leaves the object as it was. *)
Lemma query_zone_planning_rules_frame st z q :
  g !! "FAISS" = None ->
  g !! "RetrievalQA" = None ->
  exists r st1,
    Rag.query_zone_planning_rules w g z q st = (r, st1) /\
    self st1 = self st /\
    (r = Ok None \/ exists e, r = Raise e).
Proof.
  intros Hfaiss Hqa. destruct st as [slf fs tr]; simpl.
  unfold Rag.query_zone_planning_rules, Rag.getattr. msimpl.
  destruct (Rag.available slf) as [v|]; msimpl; [|by eauto 10].
  destruct (truthy v); msimpl; [|by eauto 10].
  destruct (Rag.llm slf) as [[l|]|]; msimpl; [|by eauto 10|by eauto 10].
  destruct (Rag.vector_stores slf) as [stores|] eqn:Hvs; msimpl; [|by eauto 10].
  destruct (stores !! z) as [vs|]; msimpl.
  - rewrite Hqa. msimpl. by eauto 10.
  - destruct (create_vector_store_frame (State slf fs tr) z Hfaiss)
      as (r & s1 & Hc & Hself & Hexit & _).
    rewrite Hc. simpl in Hself.
    destruct r as [[|]|e|n]; simpl.
    + rewrite Hqa. msimpl. by eauto 10.
    + by eauto 10.
    + by eauto 10.
    + by destruct (Hexit n).
Qed.
End RagMore.

Section RagCached.
Variable w : world.
Variable g : gmap string pyval.

(** An indexed zone on an available processor with a model: the query
    goes straight to the chain, whose class is not bound. *)
Lemma query_zone_planning_rules_cached st z q v l stores vs :
  g !! "RetrievalQA" = None ->
  Rag.available (self st) = Some v -> truthy v = true ->
  Rag.llm (self st) = Some (Some l) ->
  Rag.vector_stores (self st) = Some stores ->
  stores !! z = Some vs ->
  Rag.query_zone_planning_rules w g z q st =
    (Ok None,
     State (self st) (files st)
       (trace st ++ [Print ("Error querying zone " +:+ z +:+ ": " +:+
                            exn_str (NameError "RetrievalQA"))])).
Proof.
  intros Hqa Hv Ht Hl Hvs Hz. destruct st as [slf fs tr]; simpl in *.
  unfold Rag.query_zone_planning_rules, Rag.getattr. msimpl.
  rewrite Hv. msimpl. rewrite Ht. msimpl. rewrite Hl. msimpl. rewrite Hvs. msimpl.
  rewrite Hz. msimpl. by rewrite Hqa.
Qed.

(** [main] of the retrieval script only ever prints lines of text. *)
Lemma rag_main_only_prints done argv environ st :
  g = Rag.globals done ->
  exists lines,
    trace (Rag.main w g argv environ st).2 = trace st ++ map Print lines /\
    files (Rag.main w g argv environ st).2 = files st /\
    ((Rag.main w g argv environ st).1 = Exit 1 \/
     (Rag.main w g argv environ st).1 = Raise (NameError "PyPDFLoader")).
Proof.
  intros ->. destruct st as [slf fs tr].
  destruct (Rag.main w (Rag.globals done) argv environ (State slf fs tr)) as [r st'] eqn:Hrun.
  simpl. unfold Rag.main in Hrun.
  destruct (length argv <? 3)%nat.
  { msimpl. injection Hrun as <- <-. eexists [_]. simpl. by auto. }
  destruct (negb (opt_str_truthy (environ !! "OPENAI_API_KEY"))).
  { msimpl. injection Hrun as <- <-. eexists [_]. simpl. by auto. }
  unfold bind at 1 in Hrun. unfold update_self at 1 in Hrun. unfold bind at 1 in Hrun.
  rewrite rag_init_outcome in Hrun.
  destruct (bool_decide (1 ≤ done)%nat).
  - unfold Rag.getattr in Hrun. msimpl. injection Hrun as <- <-.
    eexists [_; _]. simpl. rewrite <- app_assoc. by auto.
  - injection Hrun as <- <-. exists []. simpl. rewrite app_nil_r. by auto.
Qed.
End RagCached.

(** X14. [create_vector_store] never builds an index: whatever the state of
    the object and whatever the libraries do, it leaves the object unchanged,
    and it returns [True] only for a zone whose index is already stored. *)
Theorem index_is_never_built (w : world) (done : nat)
    (st : state Rag.AucklandCouncilPDFProcessor) (z : string) :
  let r := Rag.create_vector_store w (Rag.globals done) z st in
  self r.2 = self st /\
  (r.1 = Ok true ->
   exists stores vs, Rag.vector_stores (self st) = Some stores /\ stores !! z = Some vs).
Proof.
  destruct (create_vector_store_frame w (Rag.globals done) st z)
    as (r & st1 & Hc & Hself & _ & Hcached).
  { apply rag_globals_unbound. set_solver. }
  simpl. by rewrite Hc.
Qed.

(** X15. [query_zone_planning_rules] never returns an answer, on any object
    and whatever the libraries do: its result is [None] or an exception, and
    the object is left as it was. *)
Theorem retrieval_query_never_answers (w : world) (done : nat)
    (st : state Rag.AucklandCouncilPDFProcessor) (z q : string) :
  let r := Rag.query_zone_planning_rules w (Rag.globals done) z q st in
  self r.2 = self st /\ (r.1 = Ok None \/ exists e, r.1 = Raise e).
Proof.
  destruct (query_zone_planning_rules_frame w (Rag.globals done) st z q)
    as (r & st1 & Hq & Hself & Hres).
  { apply rag_globals_unbound. set_solver. }
  { apply rag_globals_unbound. set_solver. }
  simpl. by rewrite Hq.
Qed.

(** X16. The retrieval script never answers: every run leaves through
    [sys.exit(1)] or through the [NameError] of the constructor, and all it
    does on the way is print lines of text: no JSON object, no request, no
    file, no model. *)
Theorem retrieval_script_only_prints (w : world) (done : nat) (import_error : string)
    (argv : list string) (environ : gmap string string)
    (st : state Rag.AucklandCouncilPDFProcessor) :
  let r := Rag.script w done import_error argv environ st in
  exists lines : list string,
    trace r.2 = trace st ++ map Print lines /\
    files r.2 = files st /\
    (r.1 = Exit 1 \/ r.1 = Raise (NameError "PyPDFLoader")).
Proof.
  simpl. unfold Rag.script, Rag.load_module.
  destruct (bool_decide (3 ≤ done)%nat).
  - unfold bind, ret. simpl.
    apply (rag_main_only_prints w (Rag.globals done) done argv environ st eq_refl).
  - unfold bind at 1. unfold print, emit. simpl.
    destruct (rag_main_only_prints w (Rag.globals done) done argv environ
                (State (self st) (files st)
                   (trace st ++ [Print ("LangChain dependencies not available: " +:+
                                        import_error)])) eq_refl)
      as (lines & Htrace & Hfiles & Hres).
    exists (("LangChain dependencies not available: " +:+ import_error) :: lines).
    simpl in Htrace, Hfiles.
    split; [|split; [exact Hfiles|exact Hres]].
    rewrite Htrace. simpl. by rewrite <- app_assoc.
Qed.

(** X17. A zone whose index is stored is not loaded again:
    [create_vector_store] returns [True] at once, with no request and no
    output.  The query on such a zone still has no answer: it stops at the
    retrieval chain, whose class the module never imports. *)
Theorem stored_index_is_not_rebuilt (w : world) (done : nat)
    (st : state Rag.AucklandCouncilPDFProcessor) (z q : string) (v : pyval) (l : LLM)
    (stores : gmap string VectorStore) (vs : VectorStore) :
  Rag.available (self st) = Some v ->
  truthy v = true ->
  Rag.llm (self st) = Some (Some l) ->
  Rag.vector_stores (self st) = Some stores ->
  stores !! z = Some vs ->
  Rag.create_vector_store w (Rag.globals done) z st = (Ok true, st) /\
  Rag.query_zone_planning_rules w (Rag.globals done) z q st =
    (Ok None,
     State (self st) (files st)
       (trace st ++ [Print ("Error querying zone " +:+ z +:+ ": " +:+
                            exn_str (NameError "RetrievalQA"))])).
Proof.
  intros Hv Ht Hl Hvs Hz. split.
  - by apply (create_vector_store_cached w _ st z v stores vs).
  - apply (query_zone_planning_rules_cached w _ st z q v l stores vs); try done.
    apply rag_globals_unbound. set_solver.
Qed.

Lemma stored_index_is_not_rebuilt_witness :
  Rag.available (self rag_cached) = Some (PyBool true) /\
  truthy (PyBool true) = true /\
  Rag.llm (self rag_cached) = Some (Some demo_llm) /\
  Rag.create_vector_store demo_world (Rag.globals 3) "H3" rag_cached = (Ok true, rag_cached) /\
  Rag.query_zone_planning_rules demo_world (Rag.globals 3) "H3" demo_question rag_cached =
    (Ok None,
     State (self rag_cached) (files rag_cached)
       (trace rag_cached ++ [Print ("Error querying zone " +:+ "H3" +:+ ": " +:+
                                    exn_str (NameError "RetrievalQA"))])).
Proof.
  split; [reflexivity|]. split; [reflexivity|]. split; [reflexivity|].
  eapply (stored_index_is_not_rebuilt demo_world 3 rag_cached "H3" demo_question (PyBool true)
            demo_llm).
  - reflexivity.
  - reflexivity.
  - reflexivity.
  - reflexivity.
  - vm_compute; reflexivity.
Defined.



(** X20. The two convenience queries of [SimplePDFProcessor] are queries
    like any other: for a zone outside the registry they return [None] and
    do nothing, whatever the building type. *)
Theorem convenience_queries_unknown_zone (w : world) (g : gmap string pyval)
    (st : state Simple.SimplePDFProcessor) (z building_type : string) (l : option LLM) :
  Simple.llm (self st) = Some l ->
  Simple.get_zone_pdf_urls !! z = None ->
  Simple.get_zone_building_rules w g z st = (Ok None, st) /\
  Simple.get_zone_consent_requirements w g z building_type st = (Ok None, st).
Proof.
  intros Hl Hz. split.
  - by apply (query_zone_with_ai_unknown_zone w g st z _ l).
  - by apply (query_zone_with_ai_unknown_zone w g st z _ l).
Qed.

Lemma convenience_queries_unknown_zone_witness :
  Simple.llm (self simple_ready) = Some (Some demo_llm) /\
  Simple.get_zone_pdf_urls !! "I1" = None /\
  Simple.get_zone_building_rules demo_world (Simple.globals 2) "I1" simple_ready =
    (Ok None, simple_ready) /\
  Simple.get_zone_consent_requirements demo_world (Simple.globals 2) "I1" "garage" simple_ready =
    (Ok None, simple_ready).
Proof.
  split; [reflexivity|]. split; [vm_compute; reflexivity|].
  apply (convenience_queries_unknown_zone demo_world (Simple.globals 2) simple_ready "I1"
           "garage" (Some demo_llm)).
  - reflexivity.
  - vm_compute; reflexivity.
Defined.

(** X21. On every object its constructor has built, the two convenience
    queries of [AucklandCouncilPDFProcessor] return [None] and do nothing,
    for every zone and building type. *)
Theorem retrieval_convenience_queries_none (w w' : world) (done : nat) (key : option string)
    (st st' : state Rag.AucklandCouncilPDFProcessor) (z building_type : string) :
  Rag.__init__ w (Rag.globals done) key st = (Ok tt, st') ->
  Rag.get_zone_building_rules w' (Rag.globals done) z st' = (Ok None, st') /\
  Rag.get_zone_consent_requirements w' (Rag.globals done) z building_type st' = (Ok None, st').
Proof.
  intros Hinit. rewrite rag_init_outcome in Hinit.
  destruct (bool_decide (1 ≤ done)%nat); [|done].
  injection Hinit as <-.
  split; by apply (query_zone_planning_rules_unavailable w' _ _ z _ (PyBool false)).
Qed.

Lemma retrieval_convenience_queries_none_witness :
  Rag.__init__ demo_world (Rag.globals 3) (Some "sk-test") (State Rag.blank ∅ []) =
    (Ok tt, rag_constructed) /\
  Rag.get_zone_building_rules demo_world (Rag.globals 3) "H3" rag_constructed =
    (Ok None, rag_constructed) /\
  Rag.get_zone_consent_requirements demo_world (Rag.globals 3) "H3" "garage" rag_constructed =
    (Ok None, rag_constructed).
Proof.
  split; [vm_compute; reflexivity|].
  apply (retrieval_convenience_queries_none demo_world demo_world 3 (Some "sk-test")
           (State Rag.blank ∅ []) rag_constructed "H3" "garage").
  vm_compute; reflexivity.
Defined.

Section SimpleResponses.
Variable w : world.
Variable g : gmap string pyval.

(** Neither the extraction nor the query prints a JSON object. *)
Lemma extract_pdf_text_responses st url :
  responses (trace (Simple.extract_pdf_text w g url st).2) = responses (trace st).
Proof.
  destruct st as [slf fs tr]; simpl.
  unfold Simple.extract_pdf_text, Simple.get_available, responses. msimpl.
  destruct (Simple.available slf) as [v|]; msimpl; [|done].
  destruct (truthy v); msimpl; [|done].
  destruct (http_get w url) as [e|r]; msimpl; [by rewrite !omap_app, !app_nil_r|].
  destruct (status_error r); msimpl; [by rewrite !omap_app, !app_nil_r|].
  destruct (g !! "PyPDFLoader"); msimpl; [|by rewrite !omap_app, !app_nil_r].
  rewrite !lookup_insert_eq.
  destruct (pdf_load w (content r)); msimpl; [by rewrite !omap_app, !app_nil_r|].
  rewrite !lookup_insert_eq. msimpl.
  by rewrite !omap_app, !app_nil_r.
Qed.

Lemma query_zone_with_ai_responses st z q :
  responses (trace (Simple.query_zone_with_ai w g z q st).2) = responses (trace st).
Proof.
  destruct (Simple.llm (self st)) as [[l|]|] eqn:Hl.
  - destruct (Simple.get_zone_pdf_urls !! z) as [url|] eqn:Hz.
    + rewrite (query_zone_with_ai_unfold w g st z q l url Hl Hz).
      pose proof (extract_pdf_text_responses st url) as Hx.
      destruct (Simple.extract_pdf_text w g url st) as [[[text|]|e|n] st1]; simpl in *; try done.
      destruct (str_truthy text); simpl; [|done].
      unfold responses in *.
      destruct (llm_invoke w l _); simpl; rewrite omap_app, Hx; simpl; by rewrite app_nil_r.
    + by rewrite (query_zone_with_ai_unknown_zone w g st z q (Some l) Hl Hz).
  - destruct st as [slf fs tr]; simpl in *.
    unfold Simple.query_zone_with_ai, Simple.get_llm. msimpl. by rewrite Hl.
  - destruct st as [slf fs tr]; simpl in *.
    unfold Simple.query_zone_with_ai, Simple.get_llm. msimpl. by rewrite Hl.
Qed.
End SimpleResponses.

(** X22. Every run of the truncation script with two arguments or more
    prints exactly one JSON object, whatever else it prints and however it
    ends; a run with fewer arguments prints none. *)
Theorem exactly_one_json_object (w : world) (done : nat) (argv : list string)
    (environ : gmap string string) (st : state Simple.SimplePDFProcessor) :
  exists j : json,
    responses (trace (Simple.main w (Simple.globals done) argv environ st).2) =
      responses (trace st) ++ (if (length argv <? 3)%nat then [] else [j]).
Proof.
  destruct (Nat.ltb_spec (length argv) 3) as [Hlt|Hge].
  { exists []. unfold Simple.main. apply Nat.ltb_lt in Hlt. rewrite Hlt. msimpl.
    unfold responses. rewrite omap_app. simpl. by rewrite !app_nil_r. }
  destruct (opt_str_truthy (environ !! "OPENAI_API_KEY")) eqn:Hkey.
  2:{ eexists. rewrite (simple_main_no_credential w _ argv environ st Hge Hkey). simpl.
      unfold responses. by rewrite omap_app. }
  destruct (environ !! "OPENAI_API_KEY") as [k|] eqn:Hk; [|done]. simpl in Hkey.
  destruct (bool_decide (2 ≤ done)%nat) eqn:Hdone.
  - apply bool_decide_eq_true in Hdone.
    assert (Hflag : Simple.globals done !! "LANGCHAIN_AVAILABLE" = Some (PyBool true)).
    { rewrite simple_globals_flag. by rewrite bool_decide_eq_true_2. }
    assert (Hopenai : is_Some (Simple.globals done !! "OpenAI")).
    { exists (PyClass "OpenAI"). apply simple_globals_bound; [set_solver|done]. }
    rewrite (main_after_guards w _ argv environ st k Hge Hk Hkey Hflag Hopenai).
    set (s0 := (Simple.__init__ w (Simple.globals done) (Some k) _).2).
    assert (Hs0 : responses (trace s0) = responses (trace st)).
    { subst s0. rewrite (simple_init_outcome w _ _ (Some k) true Hflag (fun _ => Hopenai)).
      simpl. rewrite Hkey. unfold responses.
      destruct (openai_new w k); simpl; rewrite omap_app; simpl; by rewrite app_nil_r. }
    pose proof (query_zone_with_ai_responses w (Simple.globals done) s0
                  (nth 1 argv EmptyString) (str_join " " (drop 2 argv))) as Hq.
    destruct (simple_constructor_init_attrs w (Simple.globals done) (Some k)
                (State Simple.blank (files st) (trace st)) true Hflag (fun _ => Hopenai))
      as [Hav Hllm].
    destruct (query_zone_with_ai_total w (Simple.globals done) s0
                (nth 1 argv EmptyString) (str_join " " (drop 2 argv)) Hav Hllm)
      as (o & s1 & Hrun).
    rewrite Hrun in *. simpl in *.
    eexists. unfold responses in *. rewrite omap_app, Hq, Hs0. simpl. done.
  - eexists. unfold Simple.main. apply Nat.ltb_ge in Hge. rewrite Hge, Hk. simpl.
    rewrite Hkey. simpl.
    unfold bind at 1. unfold update_self at 1. unfold bind at 1. simpl.
    rewrite (simple_init_outcome w _ _ (Some k) false).
    + simpl. unfold Simple.get_available. msimpl. unfold responses. by rewrite omap_app.
    + rewrite simple_globals_flag. by rewrite Hdone.
    + done.
Qed.

(** X23. The availability flag of simple-pdf-processor.py is true only
    when both names of its import block are bound, so an available
    [SimplePDFProcessor] never meets an unbound [PyPDFLoader] or [OpenAI]. *)
Theorem available_flag_implies_names_bound (done : nat) :
  Simple.globals done !! "LANGCHAIN_AVAILABLE" = Some (PyBool true) ->
  Simple.globals done !! "PyPDFLoader" = Some (PyClass "PyPDFLoader") /\
  Simple.globals done !! "OpenAI" = Some (PyClass "OpenAI").
Proof.
  rewrite simple_globals_flag. intros Hflag.
  assert (Hdone : (2 ≤ done)%nat).
  { destruct (bool_decide (2 ≤ done)%nat) eqn:Hd; [by apply bool_decide_eq_true in Hd|done]. }
  split; apply simple_globals_bound; try done; set_solver.
Qed.

Lemma available_flag_implies_names_bound_witness :
  Simple.globals 2 !! "LANGCHAIN_AVAILABLE" = Some (PyBool true) /\
  Simple.globals 2 !! "PyPDFLoader" = Some (PyClass "PyPDFLoader") /\
  Simple.globals 2 !! "OpenAI" = Some (PyClass "OpenAI").
Proof.
  split; [vm_compute; reflexivity|].
  apply (available_flag_implies_names_bound 2). vm_compute; reflexivity.
Defined.
